(* ========================================================================== *)
(*  MiniSat: shallow embedding of the rotator interface (rotif.py), the      *)
(*  rotctld server (satif.py) and the rigctld server (rigif.py).             *)
(*                                                                            *)
(*  Python strings are represented by their UTF-8 encoding as Stdlib         *)
(*  [string]s (one [ascii] per byte).  Strict UTF-8 decoding is injective,   *)
(*  so a decoded [str] is determined by the bytes it came from.              *)
(*  Python exceptions are the [py_exn] constructors; code that raises is     *)
(*  written in a small state-and-exception monad [M].                        *)
(* ========================================================================== *)

From Stdlib Require Import String Ascii List ZArith Lia Bool.
Import ListNotations.

Open Scope string_scope.
Open Scope Z_scope.

(* -------------------------------------------------------------------------- *)
(** * Python exceptions and the state/exception monad                         *)
(* -------------------------------------------------------------------------- *)

Inductive py_exn :=
| ValueError
| IndexError
| NameError            (* also UnboundLocalError, a subclass *)
| AttributeError
| TypeError
| OverflowError
| UnicodeDecodeError
| OSError.             (* socket errors other than socket.timeout *)

Inductive res (A : Type) :=
| Ok (a : A)
| Exn (e : py_exn).
Arguments Ok {A} a.
Arguments Exn {A} e.

(** A computation over the object state [S] that may raise.  The state
    reached before a raise is kept, as in Python. *)
Definition M (S A : Type) := S -> S * res A.

Definition ret {S A} (a : A) : M S A := fun s => (s, Ok a).
Definition raise {S A} (e : py_exn) : M S A := fun s => (s, Exn e).
Definition bind {S A B} (m : M S A) (k : A -> M S B) : M S B :=
  fun s => match m s with
           | (s', Ok a) => k a s'
           | (s', Exn e) => (s', Exn e)
           end.
Definition gets {S A} (f : S -> A) : M S A := fun s => (s, Ok (f s)).
Definition modify {S} (f : S -> S) : M S unit := fun s => (f s, Ok tt).
(** [try: m  except Exception: h] *)
Definition catch {S A} (m : M S A) (h : py_exn -> M S A) : M S A :=
  fun s => match m s with
           | (s', Exn e) => h e s'
           | r => r
           end.
(** Lift a Python expression that may raise. *)
Definition lift {S A} (r : res A) : M S A := fun s => (s, r).
Definition of_opt {A} (e : py_exn) (o : option A) : res A :=
  match o with Some a => Ok a | None => Exn e end.

Notation "x <- m ;; k" := (bind m (fun x => k))
  (at level 61, m at next level, right associativity).
Notation "m ;;; k" := (bind m (fun _ => k))
  (at level 61, right associativity).

(* -------------------------------------------------------------------------- *)
(** * Python string built-ins used by the sources                             *)
(* -------------------------------------------------------------------------- *)

Definition ascii_eqb (a b : ascii) : bool := Ascii.eqb a b.

(** Whitespace for [str.split()], [str.strip()] and [int()], ASCII range:
    \t \n \x0b \x0c \r, \x1c..\x1f and space. *)
Definition is_py_space (c : ascii) : bool :=
  let n := nat_of_ascii c in
  ((9 <=? n)%nat && (n <=? 13)%nat) || ((28 <=? n)%nat && (n <=? 32)%nat).

Definition is_digit (c : ascii) : bool :=
  let n := nat_of_ascii c in (48 <=? n)%nat && (n <=? 57)%nat.

Definition digit_val (c : ascii) : Z := Z.of_nat (nat_of_ascii c) - 48.

(** [s.rstrip(chars)] for a character predicate. *)
Fixpoint rstrip_by (p : ascii -> bool) (s : string) : string :=
  match s with
  | EmptyString => EmptyString
  | String c r =>
      let r' := rstrip_by p r in
      if p c && String.eqb r' "" then "" else String c r'
  end.

Fixpoint lstrip_by (p : ascii -> bool) (s : string) : string :=
  match s with
  | EmptyString => EmptyString
  | String c r => if p c then lstrip_by p r else s
  end.

(** The newline character (Rocq string literals have no escapes). *)
Definition NL : string := String "010"%char EmptyString.

(** [msg.rstrip("\n")] *)
Definition rstrip_nl (s : string) : string :=
  rstrip_by (fun c => ascii_eqb c "010"%char) s.

Definition py_strip (s : string) : string :=
  rstrip_by is_py_space (lstrip_by is_py_space s).

(** [s.split(c)] for a one-character separator: empty fields are kept. *)
Fixpoint py_split_char (c : ascii) (s : string) : list string :=
  match s with
  | EmptyString => [""]
  | String x r =>
      let l := py_split_char c r in
      if ascii_eqb x c then "" :: l
      else match l with
           | h :: t => String x h :: t
           | [] => [String x ""]
           end
  end.

Definition cons_word (w : string) (ws : list string) : list string :=
  if String.eqb w "" then ws else w :: ws.

(* first (partial) word of [s] and the words after it *)
Fixpoint split_ws_aux (s : string) : string * list string :=
  match s with
  | EmptyString => ("", [])
  | String c r =>
      let (w, ws) := split_ws_aux r in
      if is_py_space c then ("", cons_word w ws) else (String c w, ws)
  end.

(** [s.split()]: split on runs of whitespace, no empty fields.  A [str] is
    held as its UTF-8 bytes; only ASCII whitespace is recognised, so this is
    [str.split()] on ASCII text ([is_ascii_str]); Python also splits on
    non-ASCII whitespace such as U+00A0. *)
Definition py_split_ws (s : string) : list string :=
  let (w, ws) := split_ws_aux s in cons_word w ws.

(** Every character is ASCII (below 128). *)
Definition is_ascii_str (s : string) : bool :=
  forallb (fun c => (nat_of_ascii c <? 128)%nat) (list_ascii_of_string s).

Fixpoint find_char (c : ascii) (s : string) : option (string * string) :=
  match s with
  | EmptyString => None
  | String x r =>
      if ascii_eqb x c then Some ("", r)
      else match find_char c r with
           | Some (b, a) => Some (String x b, a)
           | None => None
           end
  end.

(** [s.split(c, n)]: at most [n] splits. *)
Fixpoint py_split_max (c : ascii) (n : nat) (s : string) : list string :=
  match n with
  | O => [s]
  | S n' =>
      match find_char c s with
      | None => [s]
      | Some (b, a) => b :: py_split_max c n' a
      end
  end.

(* digits with single underscores between them, accumulated in base 10 *)
Fixpoint dec_us (s : string) (acc : Z) (last_digit : bool) : option Z :=
  match s with
  | EmptyString => if last_digit then Some acc else None
  | String c r =>
      if is_digit c then dec_us r (acc * 10 + digit_val c) true
      else if ascii_eqb c "_"%char && last_digit then dec_us r acc false
      else None
  end.

(** [int(s)] for a [str] [s] in base 10 over ASCII text; [None] is the
    ValueError.  Python's [int()] also accepts non-ASCII decimal digits and
    whitespace, which this model rejects. *)
Definition py_int (s : string) : option Z :=
  match py_strip s with
  | String "-" r => option_map Z.opp (dec_us r 0 false)
  | String "+" r => dec_us r 0 false
  | t => dec_us t 0 false
  end.

Fixpoint dec_digits (fuel : nat) (n : Z) (acc : string) : string :=
  match fuel with
  | O => acc
  | S f =>
      let acc' := String (ascii_of_nat (48 + Z.to_nat (n mod 10))) acc in
      if n / 10 =? 0 then acc' else dec_digits f (n / 10) acc'
  end.

(** [str(n)] (equivalently ["%s" % n]) for a Python [int]. *)
Definition py_str_Z (z : Z) : string :=
  if z <? 0 then "-" ++ dec_digits (S (Z.to_nat (Z.log2 (- z)))) (- z) ""
  else dec_digits (S (Z.to_nat (Z.log2 z))) z "".

Example py_str_Z_ex : py_str_Z 123 = "123" /\ py_str_Z (-45) = "-45" /\ py_str_Z 0 = "0".
Proof. repeat split; reflexivity. Qed.

Example py_int_ex : py_int "145800000" = Some 145800000 /\ py_int " -1_0" = Some (-10)
  /\ py_int "1__0" = None /\ py_int "" = None /\ py_int "12.5" = None.
Proof. repeat split; reflexivity. Qed.

Example split_ex : py_split_char " "%char "F  12" = ["F"; ""; "12"]
  /\ py_split_ws " P 1.5	 2 " = ["P"; "1.5"; "2"]
  /\ py_split_max ":"%char 2 "az:1:2:3" = ["az"; "1"; "2:3"]
  /\ rstrip_nl ("f" ++ NL ++ NL) = "f".
Proof. repeat split; reflexivity. Qed.

(* -------------------------------------------------------------------------- *)
(** * rigif.py: the rigctld server                                            *)
(* -------------------------------------------------------------------------- *)

(** CAT operations (defs.py, "CAT command set to be used by callers"). *)
Inductive cat_op :=
| CAT_LOCK | CAT_PTT_SET | CAT_PTT_GET | CAT_FREQ_SET
| CAT_MODE_SET | CAT_FREQ_GET | CAT_MODE_GET | CAT_TX_STATUS.

Scheme Equality for cat_op.

(** Argument of [cat.do_command]. *)
Inductive cat_arg := ANone | AStr (s : string) | ABool (b : bool).

(** A CAT response tuple [(result code, command, data)] on [catq]. *)
Record cat_reply := mk_cat_reply { c_ok : bool; c_cmd : cat_op; c_data : string }.

(** Observable effects of [RigIf], in program order. *)
Inductive rig_event :=
| RCat (op : cat_op) (arg : cat_arg)   (* self.__cat.do_command(op, arg) *)
| RSend (s : string)                   (* self.__sendq.append(s) *)
| RFreqCb (ptt : bool) (freq : string) (* self.__freqCallback(ptt, freq) *)
| RMsg (s : string)                    (* self.__msgq.append(s) *)
| RProblem (e : py_exn).               (* the catch-all's log line *)

(** Attributes of a [RigIf] object.  [lastFreq = None] means the attribute
    [self.__lastFreq] does not exist yet ([__init__] never creates it).
    [catq] is the shared CAT response deque; [arrivals] are the batches of
    replies the CAT worker appends during successive 100 ms sleeps of
    [__cat_response]. *)
Record rig := mk_rig {
  ptt : bool;
  rigPtt : bool;
  lastFreq : option string;
  restart : bool;
  catq : list cat_reply;
  arrivals : list (list cat_reply);
  rtrace : list rig_event }.

(** [RigIf.__init__] (the CAT queue starts with the given content). *)
Definition rig_init (q : list cat_reply) (arr : list (list cat_reply)) : rig :=
  {| ptt := false; rigPtt := false; lastFreq := None; restart := false;
     catq := q; arrivals := arr; rtrace := [] |}.

Definition set_ptt (b : bool) (s : rig) : rig :=
  {| ptt := b; rigPtt := rigPtt s; lastFreq := lastFreq s; restart := restart s;
     catq := catq s; arrivals := arrivals s; rtrace := rtrace s |}.
Definition set_rigPtt (b : bool) (s : rig) : rig :=
  {| ptt := ptt s; rigPtt := b; lastFreq := lastFreq s; restart := restart s;
     catq := catq s; arrivals := arrivals s; rtrace := rtrace s |}.
Definition set_lastFreq (f : string) (s : rig) : rig :=
  {| ptt := ptt s; rigPtt := rigPtt s; lastFreq := Some f; restart := restart s;
     catq := catq s; arrivals := arrivals s; rtrace := rtrace s |}.
Definition set_restart (s : rig) : rig :=
  {| ptt := ptt s; rigPtt := rigPtt s; lastFreq := lastFreq s; restart := true;
     catq := catq s; arrivals := arrivals s; rtrace := rtrace s |}.
Definition set_catq (q : list cat_reply) (s : rig) : rig :=
  {| ptt := ptt s; rigPtt := rigPtt s; lastFreq := lastFreq s; restart := restart s;
     catq := q; arrivals := arrivals s; rtrace := rtrace s |}.
Definition emit (ev : rig_event) (s : rig) : rig :=
  {| ptt := ptt s; rigPtt := rigPtt s; lastFreq := lastFreq s; restart := restart s;
     catq := catq s; arrivals := arrivals s; rtrace := rtrace s ++ [ev] |}.

(** [sleep(0.1)]: the CAT worker may append replies meanwhile. *)
Definition sleep_tick (s : rig) : rig :=
  match arrivals s with
  | [] => s
  | b :: rest =>
      {| ptt := ptt s; rigPtt := rigPtt s; lastFreq := lastFreq s;
         restart := restart s; catq := catq s ++ b; arrivals := rest;
         rtrace := rtrace s |}
  end.

Definition RM := M rig.

Definition do_command (op : cat_op) (a : cat_arg) : RM unit := modify (emit (RCat op a)).
Definition send (str : string) : RM unit := modify (emit (RSend str)).

(** [RigIf.manualSetPtt] *)
Definition manualSetPtt (p : bool) : RM unit :=
  modify (set_ptt p) ;;;
  if negb p then do_command CAT_PTT_SET (ABool false) ;;; modify (set_rigPtt false)
  else ret tt.

(** Result of the pops [__cat_response] does before it next finds the deque
    empty: replies with a false result code are dropped silently. *)
Inductive pop_result :=
| PFound (data : string) (rest : list cat_reply)
| PMismatch (cmd : cat_op) (rest : list cat_reply)
| PEmpty.

Fixpoint pop_replies (command : cat_op) (q : list cat_reply) : pop_result :=
  match q with
  | [] => PEmpty
  | r :: q' =>
      if c_ok r then
        if cat_op_beq (c_cmd r) command then PFound (c_data r) q'
        else PMismatch (c_cmd r) q'
      else pop_replies command q'
  end.

(** The loop of [RigIf.__cat_response] with [count] still to run.  Both log
    lines are written [self.__msgq(...)]: [msgq] is a deque, so calling it
    raises TypeError (after the mismatching reply has been popped). *)
Fixpoint cat_wait (command : cat_op) (count : nat) : RM string :=
  fun s =>
    match pop_replies command (catq s) with
    | PFound d q' => (set_catq q' s, Ok d)
    | PMismatch _ q' => (set_catq q' s, Exn TypeError)
    | PEmpty =>
        let s' := sleep_tick (set_catq [] s) in
        match count with
        | S ((S _) as c') => cat_wait command c' s'
        | _ => (s', Exn TypeError)          (* count <= 0: timeout *)
        end
    end.

(** The state after [k] passes of [__cat_response]'s wait that found the
    deque empty once the replies with a false result code were popped: each
    pass ends in [sleep(0.1)]. *)
Fixpoint cat_idle (k : nat) (s : rig) : rig :=
  match k with
  | O => s
  | S k' => cat_idle k' (sleep_tick (set_catq [] s))
  end.

(** [RigIf.__cat_response]: [count = 50]. *)
Definition cat_response (command : cat_op) : RM string := cat_wait command 50.

Section RigListen.

(** The CAT module ([cat.py]) is not part of the sources; its mode
    translations are opaque functions here. *)
Variable mode_for_id : string -> string.
Variable bandwidth_for_mode : string -> string.

Definition local {A} (o : option A) : RM A := lift (of_opt NameError o).

(** Tokens of a received line: [rstrip("\n")], [split(' ')], empty tokens
    dropped. *)
Definition rig_params (msg0 : string) : list string :=
  filter (fun t => negb (String.eqb t "")) (py_split_char " "%char (rstrip_nl msg0)).

(** Body of the [try] in [RigIf.__listenCallback] (after the empty test). *)
Definition listen_body (msg0 : string) : RM unit :=
  let msg := rstrip_nl msg0 in
  let params := rig_params msg0 in
  match params with
  | [] => raise IndexError
  | code :: _ =>
      let arg1 := if (length params =? 2)%nat then nth_error params 1 else None in
      let arg2 := if (length params =? 3)%nat then nth_error params 2 else None in
      if String.eqb code "F" then
        freq <- local arg1 ;;
        do_command CAT_FREQ_SET (AStr freq) ;;;
        send ("RPRT 0" ++ NL) ;;;
        p <- gets ptt ;;
        modify (emit (RFreqCb p freq)) ;;;
        p' <- gets ptt ;;
        (if p' then
           nf <- lift (of_opt ValueError (py_int freq)) ;;
           lf <- gets lastFreq ;;
           lfs <- lift (of_opt AttributeError lf) ;;
           nl <- lift (of_opt ValueError (py_int lfs)) ;;
           if Z.abs (nf - nl) >? 100000 then
             do_command CAT_PTT_SET (ABool true) ;;; modify (set_rigPtt true)
           else ret tt
         else ret tt) ;;;
        modify (set_lastFreq freq)
      else if String.eqb code "f" then
        do_command CAT_FREQ_GET ANone ;;;
        f <- cat_response CAT_FREQ_GET ;;
        send (f ++ NL)
      else if String.eqb code "t" then
        p <- gets ptt ;;
        if p then send ("1" ++ NL) else send ("0" ++ NL)
      else if String.eqb code "M" then
        mode <- local arg1 ;;
        _ <- local arg2 ;;
        do_command CAT_MODE_SET (AStr mode) ;;;
        send ("RPRT 0" ++ NL)
      else if String.eqb code "m" then
        do_command CAT_MODE_GET ANone ;;;
        mode <- cat_response CAT_MODE_GET ;;
        let smode := mode_for_id mode in
        let sfilt := bandwidth_for_mode smode in
        send (smode ++ " " ++ sfilt ++ NL)
      else if String.eqb code "q" then
        modify (emit (RMsg "Request to quit from sat control program!")) ;;;
        modify set_restart ;;;
        send ("RPRT 0" ++ NL)
      else if String.eqb code "x" then
        modify (emit (RMsg "Rig listner requested exit!")) ;;;
        modify set_restart
      else
        modify (emit (RMsg ("Unknown command from rig interface! [" ++ msg ++ "]"))) ;;;
        send ("RPRT 0" ++ NL)
  end.

(** [RigIf.__listenCallback] *)
Definition listenCallback (msg : string) : RM unit :=
  if (String.length msg =? 0)%nat then ret tt
  else catch (listen_body msg)
         (fun e => modify (emit (RProblem e)) ;;; modify set_restart).

End RigListen.

(** Operations on a [RigIf]: a line from the tracker, or the operator's PTT
    switch ([manualSetPtt]); each runs to completion before the next. *)
Inductive rig_op := OpLine (msg : string) | OpPtt (p : bool).

Definition rig_op_step (mf bw : string -> string) (o : rig_op) : RM unit :=
  match o with
  | OpLine m => listenCallback mf bw m
  | OpPtt p => manualSetPtt p
  end.

Fixpoint rig_run (mf bw : string -> string) (ops : list rig_op) (s : rig) : rig :=
  match ops with
  | [] => s
  | o :: os => rig_run mf bw os (fst (rig_op_step mf bw o s))
  end.

(** A line whose tokens are [F <arg>]: the only kind of line that can reach
    the assignment [self.__lastFreq = freq]. *)
Definition sets_freq (o : rig_op) : bool :=
  match o with
  | OpLine m => match rig_params m with [c; _] => String.eqb c "F" | _ => false end
  | OpPtt _ => false
  end.

(* -------------------------------------------------------------------------- *)
(** ** Frame lemmas: computations that leave [lastFreq] and [rigPtt] alone    *)
(* -------------------------------------------------------------------------- *)

Definition frame {A} (m : RM A) : Prop :=
  forall s, lastFreq (fst (m s)) = lastFreq s /\ rigPtt (fst (m s)) = rigPtt s.

Lemma frame_ret {A} (a : A) : frame (ret a).
Proof. intro s; split; reflexivity. Qed.

Lemma frame_raise {A} e : frame (A:=A) (raise e).
Proof. intro s; split; reflexivity. Qed.

Lemma frame_lift {A} (r : res A) : frame (lift r).
Proof. intro s; split; reflexivity. Qed.

Lemma frame_gets {A} (f : rig -> A) : frame (gets f).
Proof. intro s; split; reflexivity. Qed.

Lemma frame_emit ev : frame (modify (emit ev)).
Proof. intro s; split; reflexivity. Qed.

Lemma frame_restart : frame (modify set_restart).
Proof. intro s; split; reflexivity. Qed.

Lemma frame_send str : frame (send str).
Proof. apply frame_emit. Qed.

Lemma frame_do_command op a : frame (do_command op a).
Proof. apply frame_emit. Qed.

Lemma frame_bind {A B} (m : RM A) (k : A -> RM B) :
  frame m -> (forall a, frame (k a)) -> frame (bind m k).
Proof.
  intros Hm Hk s. unfold bind.
  destruct (m s) as [s' [a|e]] eqn:E; specialize (Hm s); rewrite E in Hm;
    simpl in Hm; destruct Hm as [H1 H2].
  - destruct (Hk a s') as [H3 H4]. rewrite H3, H4. auto.
  - simpl. auto.
Qed.

Lemma frame_catch {A} (m : RM A) (h : py_exn -> RM A) :
  frame m -> (forall e, frame (h e)) -> frame (catch m h).
Proof.
  intros Hm Hh s. unfold catch.
  specialize (Hm s). destruct (m s) as [s' [a|e]]; simpl in *.
  - exact Hm.
  - destruct Hm as [H1 H2]. destruct (Hh e s') as [H3 H4].
    rewrite H3, H4. auto.
Qed.

Lemma sleep_tick_frame s :
  lastFreq (sleep_tick s) = lastFreq s /\ rigPtt (sleep_tick s) = rigPtt s.
Proof. unfold sleep_tick. destruct (arrivals s); split; reflexivity. Qed.

Lemma frame_cat_wait command count : frame (cat_wait command count).
Proof.
  induction count as [|c IH]; intro s; simpl;
    destruct (pop_replies command (catq s)); try (split; reflexivity).
  - exact (sleep_tick_frame (set_catq [] s)).
  - destruct c as [|c'].
    + exact (sleep_tick_frame (set_catq [] s)).
    + destruct (IH (sleep_tick (set_catq [] s))) as [H1 H2].
      destruct (sleep_tick_frame (set_catq [] s)) as [H3 H4].
      rewrite H1, H2, H3, H4. split; reflexivity.
Qed.

Lemma frame_cat_response command : frame (cat_response command).
Proof. apply frame_cat_wait. Qed.

Create HintDb rigframe.
#[local] Hint Resolve frame_ret frame_raise frame_lift frame_gets frame_emit
  frame_restart frame_send frame_do_command frame_cat_response : rigframe.

Ltac frame_auto :=
  repeat first
    [ apply frame_bind; intros
    | apply frame_catch; intros
    | match goal with |- frame (if ?b then _ else _) => destruct b end
    | solve [auto with rigframe] ].

Lemma listen_frame mf bw msg :
  sets_freq (OpLine msg) = false -> frame (listenCallback mf bw msg).
Proof.
  intros H. unfold listenCallback.
  destruct (String.length msg =? 0)%nat; [apply frame_ret|].
  apply frame_catch; [|intros; frame_auto].
  unfold listen_body. simpl in H.
  destruct (rig_params msg) as [|code rest] eqn:E; [apply frame_raise|].
  destruct (String.eqb code "F") eqn:EF.
  - destruct rest as [|x [|y r]].
    + intro s; split; reflexivity.
    + discriminate H.
    + intro s; split; reflexivity.
  - frame_auto.
Qed.

Lemma manualSetPtt_frame_inv p s :
  rigPtt s = false ->
  lastFreq (fst (manualSetPtt p s)) = lastFreq s /\ rigPtt (fst (manualSetPtt p s)) = false.
Proof. intros H. destruct p; simpl; auto. Qed.

(** Before any [F <arg>] line, [self.__lastFreq] does not exist and the rig
    has never been keyed. *)
Lemma rig_run_no_freq mf bw ops s :
  forallb (fun o => negb (sets_freq o)) ops = true ->
  lastFreq s = None -> rigPtt s = false ->
  lastFreq (rig_run mf bw ops s) = None /\ rigPtt (rig_run mf bw ops s) = false.
Proof.
  revert s. induction ops as [|o os IH]; intros s Hops H1 H2; simpl; auto.
  simpl in Hops. apply andb_prop in Hops. destruct Hops as [Ho Hos].
  apply IH; auto.
  - destruct o as [m|p]; simpl.
    + apply negb_true_iff in Ho. destruct (listen_frame mf bw m Ho s). congruence.
    + destruct (manualSetPtt_frame_inv p s H2). congruence.
  - destruct o as [m|p]; simpl.
    + apply negb_true_iff in Ho. destruct (listen_frame mf bw m Ho s). congruence.
    + destruct (manualSetPtt_frame_inv p s H2). assumption.
Qed.

Lemma rig_params_nonempty msg :
  rig_params msg <> [] -> (String.length msg =? 0)%nat = false.
Proof. destruct msg; [intros H; exfalso; apply H; reflexivity | reflexivity]. Qed.

(** An [F <hz>] line while [ptt] is set and [self.__lastFreq] does not exist:
    the three first effects happen, then [int(self.__lastFreq)] raises
    AttributeError, which the catch-all logs before requesting a restart. *)
Lemma F_line_no_lastFreq mf bw s msg hz n :
  rig_params msg = ["F"; hz] -> py_int hz = Some n ->
  ptt s = true -> lastFreq s = None ->
  listenCallback mf bw msg s =
    ({| ptt := true; rigPtt := rigPtt s; lastFreq := None; restart := true;
        catq := catq s; arrivals := arrivals s;
        rtrace := rtrace s ++ [RCat CAT_FREQ_SET (AStr hz); RSend ("RPRT 0" ++ NL);
                               RFreqCb true hz; RProblem AttributeError] |}, Ok tt).
Proof.
  intros Hp Hn Hptt Hlf.
  unfold listenCallback. rewrite rig_params_nonempty by (rewrite Hp; discriminate).
  unfold catch, listen_body. rewrite Hp.
  cbv [bind local lift of_opt do_command send modify gets ret]. simpl. rewrite Hptt. simpl.
  rewrite Hn. simpl. rewrite Hlf. simpl.
  unfold set_restart, emit; simpl. rewrite Hptt, Hlf, <- !app_assoc. reflexivity.
Qed.


(** The 100 kHz boundary, once [lastFreq] holds 145800000: a jump of exactly
    100000 does not key the rig, 100001 does. *)
Example F_boundary :
  let s := {| ptt := true; rigPtt := false; lastFreq := Some "145800000";
              restart := false; catq := []; arrivals := []; rtrace := [] |} in
  rigPtt (fst (listenCallback id id ("F 145900000" ++ NL) s)) = false /\
  rigPtt (fst (listenCallback id id ("F 145900001" ++ NL) s)) = true /\
  lastFreq (fst (listenCallback id id ("F 145900000" ++ NL) s)) = Some "145900000".
Proof. repeat split; reflexivity. Qed.

(* ========================================================================== *)
(** ** Claims about the rigctld server                                        *)
(* ========================================================================== *)

(** C1 (code_bug): an [F <hz>] line handled while [ptt_intent] is true must
    key the rig iff the jump from [last_freq_hz] exceeds 100000, and must set
    [last_freq_hz := hz] in every case.  Evaluated on a fresh [RigIf] whose
    operator has switched PTT on, the line ["F 435850000\n"] leaves
    [last_freq_hz] unset and the rig unkeyed, and requests a restart: the
    attribute [self.__lastFreq] is read before it was ever assigned. *)
Theorem C1_F_line_fresh_rig (mf bw : string -> string) :
  let s0 := fst (manualSetPtt true (rig_init [] [])) in
  let s1 := fst (listenCallback mf bw ("F 435850000" ++ NL) s0) in
  lastFreq s1 = None /\ rigPtt s1 = false /\ restart s1 = true /\
  rtrace s1 = [RCat CAT_FREQ_SET (AStr "435850000"); RSend ("RPRT 0" ++ NL);
               RFreqCb true "435850000"; RProblem AttributeError].
Proof. repeat split; reflexivity. Qed.



(** C3 (code_bug): the CAT response rendezvous should log and drop a
    non-matching reply and keep waiting, and return nothing on timeout.
    Both log calls are written [self.__msgq(...)] on a deque, which raises
    TypeError: with a pending [CAT_MODE_GET] reply ahead of the
    [CAT_FREQ_GET] reply, the [f] handler drops the first, raises, sends
    nothing and requests a restart, leaving the matching reply queued; on
    timeout (empty queue for 50 ticks) it raises the same way. *)
Theorem C3_cat_response_raises (mf bw : string -> string) :
  let r1 := mk_cat_reply true CAT_MODE_GET "USB" in
  let r2 := mk_cat_reply true CAT_FREQ_GET "145800000" in
  listenCallback mf bw ("f" ++ NL) (rig_init [r1; r2] []) =
    ({| ptt := false; rigPtt := false; lastFreq := None; restart := true;
        catq := [r2]; arrivals := [];
        rtrace := [RCat CAT_FREQ_GET ANone; RProblem TypeError] |}, Ok tt) /\
  listenCallback mf bw ("f" ++ NL) (rig_init [] []) =
    ({| ptt := false; rigPtt := false; lastFreq := None; restart := true;
        catq := []; arrivals := [];
        rtrace := [RCat CAT_FREQ_GET ANone; RProblem TypeError] |}, Ok tt).
Proof. split; reflexivity. Qed.

(* -------------------------------------------------------------------------- *)
(** * rotif.py: the rotator interface                                         *)
(* -------------------------------------------------------------------------- *)

(** Status values (defs.py). *)
Definition ONLINE : Z := 0.
Definition OFFLINE : Z := 1.
Definition PENDING : Z := 2.
Definition STARTING_CAL : Z := 3.
Definition CAL_FAILED : Z := 4.

Definition AZ_MOTOR_SPEED : Z := 30.
Definition EL_MOTOR_SPEED : Z := 20.

(** Strict UTF-8 validity, as [bytes.decode('utf-8')] checks it: no overlong
    forms, no surrogates, nothing above U+10FFFF. *)
Definition byte_in (c : ascii) (lo hi : nat) : bool :=
  let b := nat_of_ascii c in (lo <=? b)%nat && (b <=? hi)%nat.

Fixpoint utf8_valid (s : string) : bool :=
  match s with
  | EmptyString => true
  | String c r =>
      let b := nat_of_ascii c in
      if (b <? 128)%nat then utf8_valid r
      else if byte_in c 194 223 then
        match r with
        | String c1 r1 => byte_in c1 128 191 && utf8_valid r1
        | _ => false
        end
      else if byte_in c 224 239 then
        match r with
        | String c1 (String c2 r2) =>
            byte_in c1 (if (b =? 224)%nat then 160 else 128)
                       (if (b =? 237)%nat then 159 else 191)
            && byte_in c2 128 191 && utf8_valid r2
        | _ => false
        end
      else if byte_in c 240 244 then
        match r with
        | String c1 (String c2 (String c3 r3)) =>
            byte_in c1 (if (b =? 240)%nat then 144 else 128)
                       (if (b =? 244)%nat then 143 else 191)
            && byte_in c2 128 191 && byte_in c3 128 191 && utf8_valid r3
        | _ => false
        end
      else false
  end.

(** [data.decode('utf-8')]: a valid byte string stands for its own decoding. *)
Definition utf8_decode (b : string) : res string :=
  if utf8_valid b then Ok b else Exn UnicodeDecodeError.

(** What [recvfrom] on the command socket yields. *)
Inductive recv := RTimeout | RData (b : string) | RSockErr.

(** [self.__calaz]: the int -1 at start, then the string a calibration
    reply carried. *)
Inductive calv := CalInt (z : Z) | CalStr (s : string).

Inductive rot_event :=
| EWire (cmd : string)                   (* datagram sent to the controller *)
| EState (st : Z)                        (* self.__state_callback(st) *)
| EPos (axis : string) (n : Z) (degaz degel : Z)
    (* self.__pos_callback(axis, n), with the deg_* values at that moment *)
| EReply (s : string)                    (* q.append(s) on getPos's sink *)
| ELog (s : string).                     (* self.__msgq.append(s) *)

(** Attributes of a [RotIf]; [nreq] counts the commands sent so far. *)
Record rot := mk_rot {
  status : Z;
  calaz : calv;
  calel : calv;
  degaz : Z;
  degel : Z;
  nreq : nat;
  otrace : list rot_event }.

(** [RotIf.__init__] *)
Definition rot_init : rot :=
  {| status := OFFLINE; calaz := CalInt (-1); calel := CalInt (-1);
     degaz := -1; degel := -1; nreq := 0; otrace := [] |}.

Definition set_status (z : Z) (s : rot) : rot :=
  {| status := z; calaz := calaz s; calel := calel s; degaz := degaz s;
     degel := degel s; nreq := nreq s; otrace := otrace s |}.
Definition set_calaz (c : calv) (s : rot) : rot :=
  {| status := status s; calaz := c; calel := calel s; degaz := degaz s;
     degel := degel s; nreq := nreq s; otrace := otrace s |}.
Definition set_calel (c : calv) (s : rot) : rot :=
  {| status := status s; calaz := calaz s; calel := c; degaz := degaz s;
     degel := degel s; nreq := nreq s; otrace := otrace s |}.
Definition set_degaz (z : Z) (s : rot) : rot :=
  {| status := status s; calaz := calaz s; calel := calel s; degaz := z;
     degel := degel s; nreq := nreq s; otrace := otrace s |}.
Definition set_degel (z : Z) (s : rot) : rot :=
  {| status := status s; calaz := calaz s; calel := calel s; degaz := degaz s;
     degel := z; nreq := nreq s; otrace := otrace s |}.
Definition oemit (ev : rot_event) (s : rot) : rot :=
  {| status := status s; calaz := calaz s; calel := calel s; degaz := degaz s;
     degel := degel s; nreq := nreq s; otrace := otrace s ++ [ev] |}.
Definition sent (cmd : string) (s : rot) : rot :=
  {| status := status s; calaz := calaz s; calel := calel s; degaz := degaz s;
     degel := degel s; nreq := S (nreq s); otrace := otrace s ++ [EWire cmd] |}.

Definition OM := M rot.

Definition log (str : string) : OM unit := modify (oemit (ELog str)).
Definition state_callback (z : Z) : OM unit := modify (oemit (EState z)).
(** [self.__pos_callback(axis, n)] ([RotUI.__rotEvents] queues the pair). *)
Definition pos_callback (axis : string) (n : Z) : OM unit :=
  fun s => (oemit (EPos axis n (degaz s) (degel s)) s, Ok tt).

(** [not r or d == 'nak'] *)
Definition failed (rd : bool * string) : bool :=
  negb (fst rd) || String.eqb (snd rd) "nak".

Section RotIf.

(** The controller: the outcome of the [k]-th [recvfrom] on the command
    socket. *)
Variable reply : nat -> recv.

(** [RotIf.__doCommand]: only socket.timeout is caught. *)
Definition doCommand (cmd : string) : OM (bool * string) :=
  fun s =>
    let s' := sent cmd s in
    match reply (nreq s) with
    | RTimeout => (s', Ok (false, "nak"))
    | RData b =>
        match utf8_decode b with
        | Ok d => (s', Ok (true, d))
        | Exn e => (s', Exn e)
        end
    | RSockErr => (s', Exn OSError)
    end.

(** A command guarded by [if self.__status == OFFLINE: return True, 'ack']. *)
Definition guarded (cmd : string) : OM (bool * string) :=
  st <- gets status ;;
  if st =? OFFLINE then ret (true, "ack") else doCommand cmd.

Definition setCalAz (calibration : string) := guarded (calibration ++ "a").
Definition setCalEl (calibration : string) := guarded (calibration ++ "b").
Definition setAzSpeed (speed : Z) := guarded (py_str_Z speed ++ "n").
Definition setElSpeed (speed : Z) := guarded (py_str_Z speed ++ "m").

(** [RotIf.calibrateAz] / [RotIf.calibrateEl] *)
Definition calibrateAz : OM bool :=
  rd <- doCommand "calaz" ;;
  if failed rd then ret false
  else modify (set_degaz 0) ;;; modify (set_calaz (CalStr (snd rd))) ;;; ret true.

Definition calibrateEl : OM bool :=
  rd <- doCommand "calel" ;;
  if failed rd then ret false
  else modify (set_degel 0) ;;; modify (set_calel (CalStr (snd rd))) ;;; ret true.

(** [RotIf.homeAz] / [RotIf.homeEl] *)
Definition homeAz : OM (bool * string) :=
  st <- gets status ;;
  if st =? OFFLINE then ret (true, "ack") else
  r <- doCommand "homeaz" ;;
  modify (set_degaz 0) ;;;
  pos_callback "az" 0 ;;;
  ret r.

Definition homeEl : OM (bool * string) :=
  st <- gets status ;;
  if st =? OFFLINE then ret (true, "ack") else
  r <- doCommand "homeel" ;;
  modify (set_degel 0) ;;;
  pos_callback "el" 0 ;;;
  ret r.

(** [RotIf.setPosAz] / [RotIf.setPosEl] *)
Definition setPosAz (params : list Z) : OM (bool * string) :=
  let move :=
    st <- gets status ;;
    if st =? OFFLINE then ret (true, "ack") else
    azimuth <- lift (of_opt IndexError (nth_error params 0)) ;;
    doCommand (py_str_Z azimuth ++ "z") in
  dz <- gets degaz ;;
  if dz =? -1 then
    rd <- homeAz ;;
    if failed rd then ret rd else modify (set_degaz 0) ;;; move
  else move.

Definition setPosEl (params : list Z) : OM (bool * string) :=
  let move :=
    st <- gets status ;;
    if st =? OFFLINE then ret (true, "ack") else
    elevation <- lift (of_opt IndexError (nth_error params 0)) ;;
    doCommand (py_str_Z elevation ++ "e") in
  de <- gets degel ;;
  if de =? -1 then
    rd <- homeEl ;;
    if failed rd then ret rd else modify (set_degel 0) ;;; move
  else move.

(** The saved calibration, [defs.config["Calibration"]["AZ"]] and ["EL"]
    rendered with [%s]; [None] when the key is absent. *)
Variable cfg_az cfg_el : option string.

Definition cal_failed : OM bool :=
  state_callback CAL_FAILED ;;; modify (set_status CAL_FAILED) ;;; ret false.

(* the tail of [coldStart], reached when no step returned False *)
Definition go_online : OM bool :=
  state_callback ONLINE ;;; modify (set_status ONLINE) ;;; ret true.

(** [RotIf.coldStart] *)
Definition coldStart : OM bool :=
  st <- gets status ;;
  if st =? OFFLINE then ret true else
  rd <- setAzSpeed AZ_MOTOR_SPEED ;;
  if failed rd then log "Failed to set azimuth motor speed!" ;;; cal_failed else
  rd <- setElSpeed EL_MOTOR_SPEED ;;
  if failed rd then log "Failed to set elevation motor speed!" ;;; cal_failed else
  (match cfg_az, cfg_el with
   | Some a, Some e =>
       rd <- setCalAz a ;;
       if failed rd then cal_failed else
       rd <- setCalEl e ;;
       if failed rd then cal_failed else go_online
   | _, _ =>
       ok <- calibrateAz ;;
       if negb ok then log "Failed to calibrate azimuth motor!" ;;; cal_failed else
       ok <- calibrateEl ;;
       if negb ok then log "Failed to calibrate elevation motor!" ;;; cal_failed else
       go_online
   end).

End RotIf.

(** Magnitude of [float(n)] for a Python int of magnitude [a]: rounded half
    to even to 53 significant bits; the integer value of the double. *)
Definition round_mag (a : Z) : Z :=
  if a <? 2 ^ 53 then a
  else
    let k := Z.log2 a - 52 in
    let q := a / 2 ^ k in
    let r := a mod 2 ^ k in
    let half := 2 ^ (k - 1) in
    let q' := if r >? half then q + 1
              else if r =? half then (if Z.odd q then q + 1 else q)
              else q in
    q' * 2 ^ k.

(** [float(n)]: OverflowError when the rounded magnitude reaches 2^1024. *)
Definition py_float_of_int (n : Z) : res Z :=
  let v := round_mag (Z.abs n) in
  if v >=? 2 ^ 1024 then Exn OverflowError else Ok (Z.sgn n * v).

(** The largest finite double. *)
Definition max_double : Z := (2 ^ 53 - 1) * 2 ^ 971.

(** ['%f' % x] for a double [x] with integral value [v]. *)
Definition fmt_f (v : Z) : string := py_str_Z v ++ ".000000".

(** ['%f\n%f\n' % (float(a), float(e))] *)
Definition fmt_pos (a e : Z) : res string :=
  match py_float_of_int a with
  | Exn x => Exn x
  | Ok fa =>
      match py_float_of_int e with
      | Exn x => Exn x
      | Ok fe => Ok (fmt_f fa ++ NL ++ fmt_f fe ++ NL)
      end
  end.

(** [RotIf.getPos([az, el, q])]: the string appended to [q] is recorded as
    [EReply]. *)
Definition getPos (az el : Z) : OM bool :=
  st <- gets status ;;
  (if st =? ONLINE then
     a <- gets degaz ;; e <- gets degel ;;
     str <- lift (fmt_pos a e) ;;
     modify (oemit (EReply str))
   else
     str <- lift (fmt_pos az el) ;;
     modify (oemit (EReply str))) ;;;
  ret true.

(** [try: ... except ValueError: h] *)
Definition catch_value_error {S A} (m : M S A) (h : M S A) : M S A :=
  fun s => match m s with
           | (s', Exn ValueError) => h s'
           | r => r
           end.

(** [RotIf.__event_callback].  The handler's log call
    [self.__msgq.append('Bad position data! ', position)] passes two
    arguments to [deque.append], which raises TypeError. *)
Definition event_callback (position : string) : OM unit :=
  let poslist := py_split_max ":"%char 2 position in
  catch_value_error
    (let axis := hd "" poslist in
     v <- lift (of_opt IndexError (nth_error poslist 1)) ;;
     n <- lift (of_opt ValueError (py_int v)) ;;
     pos_callback axis n ;;;
     if String.eqb axis "az" then
       n' <- lift (of_opt ValueError (py_int v)) ;; modify (set_degaz n')
     else if String.eqb axis "el" then
       n' <- lift (of_opt ValueError (py_int v)) ;; modify (set_degel n')
     else ret tt)
    (raise TypeError).

(** One datagram [data] handled by [EvntIf.run]:
    [self.__callback(data.decode('utf-8'))]; only socket.timeout is caught
    there, so anything raised here ends the event thread. *)
Definition evnt_datagram (data : string) : OM unit :=
  d <- lift (utf8_decode data) ;; event_callback d.
(* -------------------------------------------------------------------------- *)
(** * [float(s)] and [int(x)] for a float                                     *)
(* -------------------------------------------------------------------------- *)

(** A Python float: the finite double [m * 2 ^ k] (a negative zero is kept
    as [PFin 0 0]: only [int()] reads it here), an infinity, or a NaN. *)
Inductive pyfloat := PFin (m k : Z) | PInf (neg : bool) | PNaN.

Definition lower_ascii (c : ascii) : ascii :=
  let n := nat_of_ascii c in
  if (65 <=? n)%nat && (n <=? 90)%nat then ascii_of_nat (n + 32) else c.

Fixpoint lower_str (s : string) : string :=
  match s with
  | EmptyString => EmptyString
  | String c r => String (lower_ascii c) (lower_str r)
  end.

(** [_Py_string_to_number_with_underscores]: each '_' must stand between two
    digits; the underscores are dropped. [prev] is the previous character. *)
Fixpoint strip_us (prev : ascii) (s : string) : option string :=
  match s with
  | EmptyString => if ascii_eqb prev "_"%char then None else Some EmptyString
  | String c r =>
      if ascii_eqb c "_"%char then
        if is_digit prev then strip_us c r else None
      else if ascii_eqb prev "_"%char && negb (is_digit c) then None
      else option_map (String c) (strip_us c r)
  end.

(** A run of decimal digits: (value, count, rest). *)
Fixpoint digits (s : string) (acc : Z) (n : nat) : Z * nat * string :=
  match s with
  | String c r => if is_digit c then digits r (acc * 10 + digit_val c) (S n) else (acc, n, s)
  | EmptyString => (acc, n, s)
  end.

(** Exponent part: [e] or [E], a sign, at least one digit. *)
Definition parse_exp (s : string) : option (Z * string) :=
  match s with
  | String c r =>
      if ascii_eqb c "e"%char || ascii_eqb c "E"%char then
        let '(neg, r') := match r with
                          | String "-" t => (true, t)
                          | String "+" t => (false, t)
                          | _ => (false, r)
                          end in
        let '(v, n, rest) := digits r' 0 0 in
        if (n =? 0)%nat then None else Some (if neg then - v else v, rest)
      else None
  | EmptyString => None
  end.

(** The unsigned decimal literal [_Py_dg_strtod] accepts, read in full:
    [digits [. digits] [exponent]] with at least one digit; the value is
    [m * 10 ^ E]. *)
Definition parse_dec (s : string) : option (Z * Z) :=
  let '(m1, n1, r1) := digits s 0 0 in
  let '(m, nf, r2) :=
    match r1 with
    | String "." t => digits t m1 0
    | _ => (m1, 0%nat, r1)
    end in
  if (n1 + nf =? 0)%nat then None else
  let '(ex, r3) := match parse_exp r2 with Some p => p | None => (0, r2) end in
  match r3 with
  | EmptyString => Some (m, ex - Z.of_nat nf)
  | _ => None
  end.

(** Round [num / den] (both positive) to the nearest double, ties to even:
    [(q, k)] with value [q * 2 ^ k], subnormals at [k = -1074]. *)
Definition round_rat (num den : Z) : Z * Z :=
  let qr k := if k >=? 0 then (num / (den * 2 ^ k), num mod (den * 2 ^ k), den * 2 ^ k)
              else (num * 2 ^ (- k) / den, num * 2 ^ (- k) mod den, den) in
  let k0 := Z.max (Z.log2 num - Z.log2 den - 52) (-1074) in
  let k := (let '(q, _, _) := qr k0 in
            if (q <? 2 ^ 52) && (k0 >? -1074) then k0 - 1 else k0) in
  let '(q, r, d) := qr k in
  let q' := if 2 * r >? d then q + 1
            else if 2 * r =? d then (if Z.odd q then q + 1 else q)
            else q in
  (q', k).

(** The double nearest to [(-1)^neg * m * 10 ^ E]; overflow gives an
    infinity. Beyond 10^310 the value overflows; below 10^-331 it rounds to
    zero. *)
Definition dec_to_float (neg : bool) (m E : Z) : pyfloat :=
  let nd := Z.of_nat (String.length (py_str_Z m)) in
  if m =? 0 then PFin 0 0
  else if nd + E >? 310 then PInf neg
  else if nd + E <? -330 then PFin 0 0
  else
    let '(q, k) := round_rat (m * 10 ^ Z.max E 0) (10 ^ Z.max (- E) 0) in
    if (k >=? 0) && (q * 2 ^ k >=? 2 ^ 1024) then PInf neg
    else PFin (if neg then - q else q) k.

(** [float(s)] for a [str] [s] (ASCII forms); [None] is the ValueError. *)
Definition py_float (s : string) : option pyfloat :=
  match strip_us "000"%char s with
  | None => None
  | Some t =>
      let t := py_strip t in
      let '(neg, body) := match t with
                          | String "-" r => (true, r)
                          | String "+" r => (false, r)
                          | _ => (false, t)
                          end in
      let lb := lower_str body in
      if String.eqb lb "inf" || String.eqb lb "infinity" then Some (PInf neg)
      else if String.eqb lb "nan" then Some PNaN
      else match parse_dec body with
           | Some (m, E) => Some (dec_to_float neg m E)
           | None => None
           end
  end.

(** [int(x)] for a float [x]: truncation toward zero. *)
Definition py_trunc (f : pyfloat) : res Z :=
  match f with
  | PFin m k => Ok (if k >=? 0 then m * 2 ^ k else Z.quot m (2 ^ (- k)))
  | PInf _ => Exn OverflowError
  | PNaN => Exn ValueError
  end.

(* -------------------------------------------------------------------------- *)
(** * The rotctld server: [SatIf.__listenCallback] (satif.py)                 *)
(* -------------------------------------------------------------------------- *)

(** Entries of the command deque shared with [RotIf] ([getPos] also carries
    the send queue, which is left implicit). *)
Inductive sat_cmd :=
| CGetPos (az el : Z)
| CSetPosAz (params : list Z)
| CSetPosEl (params : list Z).

Inductive sat_event :=
| SCmd (c : sat_cmd)            (* self.__cmdq.append(c) *)
| SSend (s : string)            (* self.__sendq.append(s) *)
| SPos (az el : Z)              (* self.__positionCallback(az, el) *)
| SMsg (s : string)             (* self.__msgq.append(s) *)
| SProblem (e : py_exn).        (* the catch-all's log line, for exception e *)

(** Attributes of a [SatIf] read or written by the callback; the three
    queues share one ordered trace. *)
Record sat := mk_sat {
  azimuth : Z;
  elevation : Z;
  srestart : bool;
  strace : list sat_event }.

(** [SatIf.__init__]: [__azimuth = __elevation = 0]. *)
Definition sat_init : sat :=
  {| azimuth := 0; elevation := 0; srestart := false; strace := [] |}.

Definition set_azimuth (z : Z) (s : sat) : sat :=
  {| azimuth := z; elevation := elevation s; srestart := srestart s; strace := strace s |}.
Definition set_elevation (z : Z) (s : sat) : sat :=
  {| azimuth := azimuth s; elevation := z; srestart := srestart s; strace := strace s |}.
Definition set_srestart (s : sat) : sat :=
  {| azimuth := azimuth s; elevation := elevation s; srestart := true; strace := strace s |}.
Definition semit (ev : sat_event) (s : sat) : sat :=
  {| azimuth := azimuth s; elevation := elevation s; srestart := srestart s;
     strace := strace s ++ [ev] |}.

Definition SM := M sat.

(** [int(float(t))] *)
Definition int_float (t : string) : SM Z :=
  f <- lift (of_opt ValueError (py_float t)) ;; lift (py_trunc f).

(** Body of the [try] in [SatIf.__listenCallback] (after the empty test).
    The [except ValueError] handler of the 'P' branch names the undefined
    [paramList], which raises NameError. *)
Definition sat_body (msg : string) : SM unit :=
  let toks := py_split_ws msg in
  match toks with
  | [] => raise IndexError
  | t0 :: _ =>
      if String.eqb t0 "p" then
        az <- gets azimuth ;; el <- gets elevation ;;
        modify (semit (SCmd (CGetPos az el)))
      else if String.eqb t0 "P" then
        if (length toks =? 3)%nat then
          catch_value_error
            (t1 <- lift (of_opt IndexError (nth_error toks 1)) ;;
             a <- int_float t1 ;; modify (set_azimuth a) ;;;
             t2 <- lift (of_opt IndexError (nth_error toks 2)) ;;
             e <- int_float t2 ;; modify (set_elevation e) ;;;
             az <- gets azimuth ;; modify (semit (SCmd (CSetPosAz [az]))) ;;;
             el <- gets elevation ;; modify (semit (SCmd (CSetPosEl [el]))) ;;;
             az' <- gets azimuth ;; el' <- gets elevation ;;
             modify (semit (SPos az' el')) ;;;
             modify (semit (SSend ("RPRT 0" ++ NL))))
            (raise NameError)
        else
          modify (semit (SMsg ("Invalid number of parameters for position command! ["
                               ++ msg ++ "]")))
      else if String.eqb t0 "S" then
        modify (semit (SSend ("RPRT 0" ++ NL)))
      else if String.eqb t0 "q" then
        modify (semit (SMsg "Request to quit listening")) ;;;
        modify (semit (SSend ("RPRT 0" ++ NL))) ;;;
        modify set_srestart
      else if String.eqb t0 "x" then
        modify (semit (SMsg "Antenna listner requested exit!")) ;;;
        modify set_srestart
      else
        modify (semit (SMsg ("Unknown command from satellite program! [" ++ msg ++ "]"))) ;;;
        modify (semit (SSend ("RPRT 0" ++ NL)))
  end.

(** [SatIf.__listenCallback] *)
Definition sat_listenCallback (msg : string) : SM unit :=
  if (String.length msg =? 0)%nat then ret tt
  else catch (sat_body msg)
         (fun e => modify (semit (SProblem e)) ;;; modify set_srestart).

(** The commands a trace put on the command deque, in order. *)
Fixpoint cmds_of (t : list sat_event) : list sat_cmd :=
  match t with
  | [] => []
  | SCmd c :: t' => c :: cmds_of t'
  | _ :: t' => cmds_of t'
  end.

(** A finite float ([math.isfinite]). *)
Definition py_finite (f : pyfloat) : bool :=
  match f with PFin _ _ => true | _ => false end.

(** Trace entries that only log: nothing enqueued, sent or called back. *)
Definition log_only (ev : sat_event) : bool :=
  match ev with SMsg _ | SProblem _ => true | _ => false end.

(** One entry popped by [RotIf.run]: [self.__lookup[cmd](args)]. A falsy
    result is logged; the [(r, d)] tuples of [setPosAz]/[setPosEl] are never
    falsy, and [getPos] returns True. *)
Definition rot_exec (reply : nat -> recv) (c : sat_cmd) : OM unit :=
  match c with
  | CGetPos az el =>
      ok <- getPos az el ;;
      if ok then ret tt else log "Error executing command getPos!"
  | CSetPosAz p => _ <- setPosAz reply p ;; ret tt
  | CSetPosEl p => _ <- setPosEl reply p ;; ret tt
  end.

(** [RotIf.run] draining the deque; an exception ends the thread. *)
Fixpoint rot_exec_all (reply : nat -> recv) (cs : list sat_cmd) : OM unit :=
  match cs with
  | [] => ret tt
  | c :: cs' => rot_exec reply c ;;; rot_exec_all reply cs'
  end.

(** The controller commands of a rotator trace, in order. *)
Fixpoint wire_of (t : list rot_event) : list string :=
  match t with
  | [] => []
  | EWire c :: t' => c :: wire_of t'
  | _ :: t' => wire_of t'
  end.


(* ========================================================================== *)
(** * rotif.py: polling, nudges, [RotIf.run] and [RotIf.terminate]           *)
(* ========================================================================== *)

(** [RotIf.poll]: any reply counts as success. *)
Definition poll (reply : nat -> recv) : OM (bool * string) :=
  r <- doCommand reply "poll" ;;
  (if fst r then state_callback PENDING ;;; modify (set_status PENDING) else ret tt) ;;;
  ret r.

(** [RotIf.isOnLine] *)
Definition isOnLine (reply : nat -> recv) : OM (bool * string) :=
  r <- doCommand reply "poll" ;;
  (if negb (fst r) then state_callback OFFLINE ;;; modify (set_status OFFLINE) else ret tt) ;;;
  ret r.

(** [RotIf.nudgeAzFwd], [nudgeAzRev], [nudgeElFwd], [nudgeElRev] *)
Definition nudgeAzFwd (reply : nat -> recv) := guarded reply "ngazfwd".
Definition nudgeAzRev (reply : nat -> recv) := guarded reply "ngazrev".
Definition nudgeElFwd (reply : nat -> recv) := guarded reply "ngelfwd".
Definition nudgeElRev (reply : nat -> recv) := guarded reply "ngelrev".

(** The entries the program puts on [RotIf]'s command deque (rotui.py and
    satif.py), keyed as in [self.__lookup]. *)
Inductive rot_cmd :=
| QColdstart | QPoll | QIsOnline | QCalibrateAz | QCalibrateEl
| QHomeAz | QHomeEl | QNudgeAzFwd | QNudgeAzRev | QNudgeElFwd | QNudgeElRev
| QGetPos (az el : Z)                    (* ("getPos", [az, el, sendq]) *)
| QSetPosAz (params : list Z)           (* ("setPosAz", params) *)
| QSetPosEl (params : list Z).          (* ("setPosEl", params) *)

Definition rot_cmd_name (c : rot_cmd) : string :=
  match c with
  | QColdstart => "coldstart" | QPoll => "poll" | QIsOnline => "isonline"
  | QCalibrateAz => "calibrateAz" | QCalibrateEl => "calibrateEl"
  | QHomeAz => "homeAz" | QHomeEl => "homeEl"
  | QNudgeAzFwd => "nudgeazfwd" | QNudgeAzRev => "nudgeazrev"
  | QNudgeElFwd => "nudgeelfwd" | QNudgeElRev => "nudgeelrev"
  | QGetPos _ _ => "getPos" | QSetPosAz _ => "setPosAz" | QSetPosEl _ => "setPosEl"
  end.

(** One pass of the loop body of [RotIf.run]: [self.__lookup[cmd](args)] when
    [args] is non-empty, [self.__lookup[cmd]()] otherwise; a falsy result is
    logged.  A 2-tuple is always truthy; [getPos] returns True.
    [setPosAz()] without its argument raises TypeError. *)
Definition run_entry (reply : nat -> recv) (ca ce : option string) (c : rot_cmd)
  : OM unit :=
  let bool_result (m : OM bool) : OM unit :=
    ok <- m ;;
    if ok then ret tt else log ("Error executing command " ++ rot_cmd_name c ++ "!") in
  let tuple_result (m : OM (bool * string)) : OM unit := _ <- m ;; ret tt in
  match c with
  | QColdstart => bool_result (coldStart reply ca ce)
  | QPoll => tuple_result (poll reply)
  | QIsOnline => tuple_result (isOnLine reply)
  | QCalibrateAz => bool_result (calibrateAz reply)
  | QCalibrateEl => bool_result (calibrateEl reply)
  | QHomeAz => tuple_result (homeAz reply)
  | QHomeEl => tuple_result (homeEl reply)
  | QNudgeAzFwd => tuple_result (nudgeAzFwd reply)
  | QNudgeAzRev => tuple_result (nudgeAzRev reply)
  | QNudgeElFwd => tuple_result (nudgeElFwd reply)
  | QNudgeElRev => tuple_result (nudgeElRev reply)
  | QGetPos az el => _ <- getPos az el ;; ret tt
  | QSetPosAz p =>
      if (length p =? 0)%nat then raise TypeError else tuple_result (setPosAz reply p)
  | QSetPosEl p =>
      if (length p =? 0)%nat then raise TypeError else tuple_result (setPosEl reply p)
  end.

(** The commands that reach the controller even when it is offline. *)
Definition talks_offline (c : rot_cmd) : bool :=
  match c with
  | QPoll | QIsOnline | QCalibrateAz | QCalibrateEl => true
  | _ => false
  end.

(** [str(v)] of a saved calibration value ([%s] in [setCalAz]). *)
Definition cal_str (c : calv) : string :=
  match c with CalInt z => py_str_Z z | CalStr d => d end.

(** [self.__calaz != -1]: a string never equals the int -1. *)
Definition cal_set (c : calv) : bool :=
  match c with CalInt z => negb (z =? -1) | CalStr _ => true end.

(** The calibration part of [RotIf.terminate]: [defs.config["Calibration"]]
    ("AZ", "EL") after it, each rendered with [%s]. *)
Definition terminate_cal (cfg : option string * option string) (s : rot)
  : option string * option string :=
  if cal_set (calaz s) && cal_set (calel s)
  then (Some (cal_str (calaz s)), Some (cal_str (calel s)))
  else cfg.

(* ========================================================================== *)
(** * The listeners' send loop (satif.py, rigif.py)                           *)
(* ========================================================================== *)

(** [while len(self.__sendq) > 0: data = self.__sendq.pop(); send(data)]
    with every send succeeding: [deque.pop()] takes the newest entry. The
    queue is listed oldest first; the result is the order of transmission. *)
Fixpoint drain_aux (n : nat) (q : list string) : list string :=
  match n with
  | O => []
  | S n' =>
      match q with
      | [] => []
      | _ => last q "" :: drain_aux n' (removelast q)
      end
  end.

Definition drain (q : list string) : list string := drain_aux (length q) q.

(* ========================================================================== *)
(** * rotui.py: the manual position entries and the frequency display         *)
(* ========================================================================== *)

(** What the handlers add to the command deque or to the log window. *)
Inductive ui_event := UCmd (c : rot_cmd) | ULog (s : string).

Definition UM := M (list ui_event).

(** [RotUI.__onAzimuth] / [__onElevation] for the text of the entry field.
    With an empty field [azimuth] is never bound: UnboundLocalError, a
    NameError, escapes the handler. *)
Definition onPosition (label : string) (mk : list Z -> rot_cmd) (text : string)
  : UM unit :=
  catch_value_error
    (v <- (if (0 <? String.length text)%nat
           then n <- lift (of_opt ValueError (py_int text)) ;; ret (Some n)
           else ret None) ;;
     n <- lift (of_opt NameError v) ;;
     modify (fun q => app q [UCmd (mk [n])]))
    (modify (fun q => app q [ULog ("Bad " ++ label ++ " position [" ++ text ++ "]")])).

Definition onAzimuth := onPosition "azimuth" QSetPosAz.
Definition onElevation := onPosition "elevation" QSetPosEl.

(** [RX] and [TX] (defs.py). *)
Definition RX : Z := 0.
Definition TX : Z := 1.

Fixpoint zeros (n : nat) : string :=
  match n with O => EmptyString | S n' => String "0" (zeros n') end.

(** [s.zfill(width)] for an ASCII [s]. *)
Definition py_zfill (s : string) (width : nat) : string :=
  let n := String.length s in
  if (width <=? n)%nat then s
  else
    match s with
    | String c r =>
        if ascii_eqb c "+"%char || ascii_eqb c "-"%char
        then String c (zeros (width - n) ++ r)
        else zeros (width - n) ++ s
    | EmptyString => zeros width
    end.

(** The rig frequency display: [__rigTrackFreq] ([()] until the first
    callback) and the RX and TX fields. *)
Record rigui := mk_rigui {
  rigTrackFreq : option (bool * string);
  rigrx : string;
  rigtx : string }.

(** [RotUI.__rigFreq], the [freqCallback] of [RigIf]: it is handed
    [self.__ptt] as the mode. *)
Definition rigFreq (mode : bool) (freq : string) (u : rigui) : rigui :=
  {| rigTrackFreq := Some (mode, freq); rigrx := rigrx u; rigtx := rigtx u |}.

(** [RotUI.__updateFreq]: [mode == RX] compares a bool with 0. *)
Definition updateFreq (mf : bool * string) (u : rigui) : rigui :=
  let '(mode, freq) := mf in
  let fs := py_zfill freq 9 in
  if (if mode then 1 else 0) =? RX
  then {| rigTrackFreq := rigTrackFreq u; rigrx := fs; rigtx := rigtx u |}
  else {| rigTrackFreq := rigTrackFreq u; rigrx := rigrx u; rigtx := fs |}.

(** The rig part of [RotUI.__checkCATTrackState] when the rig tracking state
    is ONLINE. *)
Definition rig_track_online (u : rigui) : rigui :=
  match rigTrackFreq u with
  | Some mf => updateFreq mf u
  | None => u
  end.

(* -------------------------------------------------------------------------- *)
(** * Predicates used in the statements below                                 *)
(* -------------------------------------------------------------------------- *)

(** A computation that, run with [ptt] off, keeps it off, leaves [rigPtt]
    alone and never keys the rig. *)
Definition ptt_quiet {A} (m : RM A) : Prop :=
  forall s, ptt s = false ->
    ptt (fst (m s)) = false /\ rigPtt (fst (m s)) = rigPtt s /\
    exists suf, rtrace (fst (m s)) = app (rtrace s) suf /\
                ~ In (RCat CAT_PTT_SET (ABool true)) suf.

(** An ASCII decimal digit string (or empty). *)
Fixpoint all_digits (s : string) : bool :=
  match s with
  | EmptyString => true
  | String c r => is_digit c && all_digits r
  end.

(** The TX frequency field when [tx], the RX field otherwise. *)
Definition freq_field (tx : bool) (u : rigui) : string :=
  if tx then rigtx u else rigrx u.

(* -------------------------------------------------------------------------- *)
(** * Concrete inputs used by the examples                                     *)
(* -------------------------------------------------------------------------- *)

Definition id_str (x : string) : string := x.

(** A controller that answers the first command with "12", every later one
    with "34". *)
Definition cal_replies : nat -> recv := fun k => match k with O => RData "12" | _ => RData "34" end.

(** A rig whose CAT queue holds a failed reply; nothing arrives during the
    first sleep, the frequency reply during the second. *)
Definition cat_rig : rig :=
  rig_init [mk_cat_reply false CAT_FREQ_GET "0"]
    [[]; [mk_cat_reply true CAT_FREQ_GET "145800000"]].

(** A rig whose mode reply arrives during the first sleep. *)
Definition mode_rig : rig := rig_init [] [[mk_cat_reply true CAT_MODE_GET "1"]].

Definition ui_blank : rigui := mk_rigui None "" "".

Definition homed_online_rot : rot := set_degaz 0 (set_status ONLINE rot_init).

Lemma round_mag_bound a : 0 <= a <= max_double -> round_mag a < 2 ^ 1024.
Proof.
  unfold round_mag, max_double. intros [H0 H1].
  destruct (Z.ltb_spec a (2 ^ 53)) as [Hs|Hs]; [lia|].
  assert (Ha : 0 < a) by lia.
  set (L := Z.log2 a).
  assert (HL : 2 ^ L <= a < 2 ^ Z.succ L) by (apply Z.log2_spec; lia).
  assert (L53 : 53 <= L) by (apply Z.log2_le_pow2; lia).
  assert (L1023 : L < 1024) by (apply Z.log2_lt_pow2; lia).
  assert (Hk : 2 ^ Z.succ L = 2 ^ 53 * 2 ^ (L - 52))
    by (rewrite <- Z.pow_add_r by lia; f_equal; lia).
  set (k := L - 52) in *.
  assert (HP : 0 < 2 ^ k) by (apply Z.pow_pos_nonneg; lia).
  set (P := 2 ^ k) in *.
  pose proof (Z.div_mod a P ltac:(lia)) as Hdm.
  pose proof (Z.mod_pos_bound a P HP) as Hr.
  set (q := a / P) in *. set (r := a mod P) in *.
  assert (Hq : q < 2 ^ 53) by nia.
  assert (Hq' : forall q', q' <= q + 1 -> q' * P <= 2 ^ 53 * P) by (intros; nia).
  cbv zeta.
  destruct (Z.le_gt_cases L 1022) as [Hsmall|Hbig].
  - assert (Hpw : 2 ^ Z.succ L <= 2 ^ 1023) by (apply Z.pow_le_mono_r; lia).
    assert (Hup : forall q', q' <= q + 1 -> q' * P < 2 ^ 1024) by (intros q' Hq1; specialize (Hq' q' Hq1); lia).
    apply Hup. destruct (r >? 2 ^ (k - 1)); [lia|].
    destruct (r =? 2 ^ (k - 1)); [destruct (Z.odd q)|]; lia.
  - assert (HL' : L = 1023) by lia.
    assert (HPv : P = 2 ^ 971) by (unfold P, k; rewrite HL'; reflexivity).
    rewrite HPv in *.
    assert (Hq2 : q <= 2 ^ 53 - 1) by nia.
    destruct (Z.eq_dec q (2 ^ 53 - 1)) as [Hqe|Hqn].
    + assert (Hr0 : r = 0) by nia.
      assert (Hhalf : 0 < 2 ^ (k - 1)) by (apply Z.pow_pos_nonneg; lia).
      rewrite Hr0.
      destruct (Z.gtb_spec 0 (2 ^ (k - 1))); [lia|].
      destruct (Z.eqb_spec 0 (2 ^ (k - 1))); [lia|]. lia.
    + destruct (r >? 2 ^ (k - 1)); [lia|].
      destruct (r =? 2 ^ (k - 1)); [destruct (Z.odd q)|]; lia.
Qed.

(** The value of [float(n)] when it does not overflow. *)
Definition py_float_val (n : Z) : Z := Z.sgn n * round_mag (Z.abs n).

Lemma py_float_of_int_ok n :
  Z.abs n <= max_double -> py_float_of_int n = Ok (py_float_val n).
Proof.
  intros H. unfold py_float_of_int, py_float_val.
  pose proof (round_mag_bound (Z.abs n) ltac:(lia)) as Hb.
  destruct (round_mag (Z.abs n) >=? 2 ^ 1024) eqn:E; [apply Z.geb_le in E; lia|].
  reflexivity.
Qed.

Lemma py_float_val_small n : Z.abs n < 2 ^ 53 -> py_float_val n = n.
Proof.
  intros H. unfold py_float_val, round_mag.
  destruct (Z.ltb_spec (Z.abs n) (2 ^ 53)); [|lia].
  destruct (Z.sgn_spec n) as [[? ->]|[[? ->]|[? ->]]]; lia.
Qed.

Lemma fmt_pos_ok a e :
  Z.abs a <= max_double -> Z.abs e <= max_double ->
  fmt_pos a e = Ok (fmt_f (py_float_val a) ++ NL ++ fmt_f (py_float_val e) ++ NL).
Proof.
  intros Ha He. unfold fmt_pos.
  rewrite (py_float_of_int_ok a Ha), (py_float_of_int_ok e He). reflexivity.
Qed.

(** Replies of the controller. *)
Definition good_reply (r : recv) : bool :=
  match r with
  | RData b => utf8_valid b && negb (String.eqb b "nak")
  | _ => false
  end.

(** A timeout, or the controller's ["nak"]. *)
Definition bad_reply (r : recv) : bool :=
  match r with
  | RTimeout => true
  | RData b => String.eqb b "nak"
  | RSockErr => false
  end.

(* ========================================================================== *)
(** ** Claims about the rotator interface                                     *)
(* ========================================================================== *)

(** C7 counterexample: a reply datagram that is not valid UTF-8 ([\xff]) is
    neither a timeout nor decodable: [__doCommand] raises
    UnicodeDecodeError instead of returning a pair. *)
Lemma C7_invalid_utf8_reply :
  doCommand (fun _ => RData (String "255" EmptyString)) "poll" rot_init
    = (sent "poll" rot_init, Exn UnicodeDecodeError) /\
  ~ (exists ok d, snd (doCommand (fun _ => RData (String "255" EmptyString)) "poll" rot_init)
                  = Ok (ok, d)).
Proof.
  split; [reflexivity|]. intros (ok & d & H). discriminate H.
Qed.

(** C7 (amended): [__doCommand] sends the command in every case (the
    command is recorded as sent, whatever the outcome); it returns
    [(False, 'nak')] exactly when the reply wait times out; it returns
    [(True, d)] when the reply datagram is valid UTF-8, [d] its decoding; a
    reply that is not valid UTF-8 raises UnicodeDecodeError and a socket
    error other than a timeout raises OSError, out of the exchange. *)
Theorem C7_doCommand_results reply cmd s :
  fst (doCommand reply cmd s) = sent cmd s /\
  (doCommand reply cmd s = (sent cmd s, Ok (false, "nak")) <-> reply (nreq s) = RTimeout) /\
  (snd (doCommand reply cmd s) = Ok (false, "nak") <-> reply (nreq s) = RTimeout) /\
  (forall b, reply (nreq s) = RData b -> utf8_valid b = true ->
     doCommand reply cmd s = (sent cmd s, Ok (true, b))) /\
  (forall b, reply (nreq s) = RData b -> utf8_valid b = false ->
     doCommand reply cmd s = (sent cmd s, Exn UnicodeDecodeError)) /\
  (reply (nreq s) = RSockErr -> doCommand reply cmd s = (sent cmd s, Exn OSError)).
Proof.
  unfold doCommand, utf8_decode. repeat split.
  - destruct (reply (nreq s)) as [|b|]; [|destruct (utf8_valid b)|]; reflexivity.
  - destruct (reply (nreq s)) as [|b|]; simpl; auto;
      [destruct (utf8_valid b)|]; simpl; intros H; discriminate H.
  - intros H. rewrite H. reflexivity.
  - destruct (reply (nreq s)) as [|b|]; simpl; auto;
      [destruct (utf8_valid b)|]; simpl; intros H; discriminate H.
  - intros H. rewrite H. reflexivity.
  - intros b H V. rewrite H, V. reflexivity.
  - intros b H V. rewrite H, V. reflexivity.
  - intros H. rewrite H. reflexivity.
Qed.

Lemma C7_doCommand_results_witness :
  doCommand (fun _ => RTimeout) "poll" rot_init = (sent "poll" rot_init, Ok (false, "nak")) /\
  doCommand (fun _ => RData "ack") "poll" rot_init = (sent "poll" rot_init, Ok (true, "ack")) /\
  doCommand (fun _ => RData (String "255" EmptyString)) "poll" rot_init
    = (sent "poll" rot_init, Exn UnicodeDecodeError) /\
  doCommand (fun _ => RSockErr) "poll" rot_init = (sent "poll" rot_init, Exn OSError).
Proof.
  destruct (C7_doCommand_results (fun _ => RTimeout) "poll" rot_init) as [_ [[_ T] _]].
  destruct (C7_doCommand_results (fun _ => RData "ack") "poll" rot_init) as [_ [_ [_ [D _]]]].
  destruct (C7_doCommand_results (fun _ => RData (String "255" EmptyString)) "poll" rot_init)
    as [_ [_ [_ [_ [U _]]]]].
  destruct (C7_doCommand_results (fun _ => RSockErr) "poll" rot_init) as [_ [_ [_ [_ [_ E]]]]].
  split; [apply T; reflexivity|].
  split; [apply D; reflexivity|].
  split; [apply (U (String "255" EmptyString)); reflexivity|].
  apply E; reflexivity.
Defined.

(** C9: after [homeAz] (resp. [homeEl]) returns with the status not
    offline, whatever the controller answered (ack, nak, a timeout),
    [deg_az] (resp. [deg_el]) is 0, the status is unchanged, and the
    position sink has been given [(axis, 0)] right after the home command
    went out. *)
Theorem C9_home_sets_zero reply s s' r :
  status s <> OFFLINE ->
  (homeAz reply s = (s', Ok r) ->
     degaz s' = 0 /\ status s' = status s /\
     otrace s' = app (otrace s) [EWire "homeaz"; EPos "az" 0 0 (degel s)]) /\
  (homeEl reply s = (s', Ok r) ->
     degel s' = 0 /\ status s' = status s /\
     otrace s' = app (otrace s) [EWire "homeel"; EPos "el" 0 (degaz s) 0]).
Proof.
  intros Hst. unfold homeAz, homeEl, bind, gets, ret, modify, pos_callback.
  destruct (Z.eqb_spec (status s) OFFLINE) as [E|_]; [contradiction|].
  unfold doCommand, utf8_decode.
  split; intros H;
    destruct (reply (nreq s)) as [|b|]; try destruct (utf8_valid b);
    inversion H; subst; simpl; rewrite <- ?app_assoc; auto.
Qed.

Lemma C9_home_sets_zero_witness :
  status (set_status ONLINE rot_init) <> OFFLINE /\
  homeAz (fun _ => RTimeout) (set_status ONLINE rot_init) =
    (fst (homeAz (fun _ => RTimeout) (set_status ONLINE rot_init)), Ok (false, "nak")) /\
  degaz (fst (homeAz (fun _ => RTimeout) (set_status ONLINE rot_init))) = 0.
Proof.
  assert (Hs : status (set_status ONLINE rot_init) <> OFFLINE) by discriminate.
  split; [exact Hs|]. split; [reflexivity|].
  exact (proj1 (proj1 (C9_home_sets_zero (fun _ => RTimeout) (set_status ONLINE rot_init)
                          _ (false, "nak") Hs) eq_refl)).
Defined.

(** C5: [getPos] appends to the supplied sink the single string
    ['%f\n%f\n'] of [deg_az, deg_el] when the status is online, and of the
    hint values otherwise; it returns True and leaves every attribute of the
    rotator unchanged.  The values are Python ints no larger in magnitude
    than the largest double (all the program produces: hints are truncated
    floats, positions come from 128-byte datagrams, 0 or -1), so [float()]
    does not overflow. *)
Theorem C5_getPos s az el :
  (status s = ONLINE ->
   Z.abs (degaz s) <= max_double -> Z.abs (degel s) <= max_double ->
   getPos az el s =
     (oemit (EReply (fmt_f (py_float_val (degaz s)) ++ NL ++
                     fmt_f (py_float_val (degel s)) ++ NL)) s, Ok true)) /\
  (status s <> ONLINE ->
   Z.abs az <= max_double -> Z.abs el <= max_double ->
   getPos az el s =
     (oemit (EReply (fmt_f (py_float_val az) ++ NL ++
                     fmt_f (py_float_val el) ++ NL)) s, Ok true)).
Proof.
  unfold getPos, bind, gets, lift, modify, ret. split.
  - intros Hon Ha He. rewrite Hon. simpl.
    rewrite (fmt_pos_ok _ _ Ha He). reflexivity.
  - intros Hoff Ha He. destruct (Z.eqb_spec (status s) ONLINE) as [E|_]; [contradiction|].
    rewrite (fmt_pos_ok _ _ Ha He). reflexivity.
Qed.

Lemma C5_getPos_witness :
  let s := set_degel 45 (set_degaz 123 (set_status ONLINE rot_init)) in
  getPos 10 20 s = (oemit (EReply ("123.000000" ++ NL ++ "45.000000" ++ NL)) s, Ok true) /\
  getPos 10 20 rot_init = (oemit (EReply ("10.000000" ++ NL ++ "20.000000" ++ NL)) rot_init, Ok true).
Proof.
  intros s. split.
  - rewrite (proj1 (C5_getPos s 10 20) eq_refl ltac:(vm_compute; discriminate)
                                               ltac:(vm_compute; discriminate)).
    reflexivity.
  - rewrite (proj2 (C5_getPos rot_init 10 20) ltac:(discriminate)
                                              ltac:(vm_compute; discriminate)
                                              ltac:(vm_compute; discriminate)).
    reflexivity.
Defined.

(** C2 (code_bug): a malformed event payload should be logged and discarded
    without raising.  The handler catches only ValueError, and its log call
    passes two arguments to [deque.append]: ["az:abc"] raises TypeError and
    ["garbage"] (no ':') raises IndexError out of the handler, which ends
    the event thread; nothing is logged.  The state is unchanged. *)
Theorem C2_malformed_event_raises s :
  evnt_datagram "az:abc" s = (s, Exn TypeError) /\
  evnt_datagram "garbage" s = (s, Exn IndexError).
Proof. split; reflexivity. Qed.




(* -------------------------------------------------------------------------- *)
(** ** Which commands go out on the wire                                      *)
(* -------------------------------------------------------------------------- *)

(** Every command [m] sends satisfies [P]. *)
Definition only_wire (P : string -> Prop) {A} (m : OM A) : Prop :=
  forall s s' r, m s = (s', r) ->
    exists suf, otrace s' = app (otrace s) suf /\ forall c, In (EWire c) suf -> P c.

Section OnlyWire.
Variable P : string -> Prop.

Lemma ow_ret {A} (a : A) : only_wire P (ret a).
Proof. intros s s' r H. inversion H; subst. exists []. rewrite app_nil_r. split; [reflexivity|intros c []]. Qed.

Lemma ow_gets {A} (f : rot -> A) : only_wire P (gets f).
Proof. intros s s' r H. inversion H; subst. exists []. rewrite app_nil_r. split; [reflexivity|intros c []]. Qed.

Lemma ow_lift {A} (x : res A) : only_wire P (lift x).
Proof. intros s s' r H. inversion H; subst. exists []. rewrite app_nil_r. split; [reflexivity|intros c []]. Qed.

Lemma ow_modify (f : rot -> rot) :
  (forall s, otrace (f s) = otrace s) -> only_wire P (modify f).
Proof.
  intros Hf s s' r H. inversion H; subst. exists []. rewrite app_nil_r, Hf.
  split; [reflexivity|intros c []].
Qed.

Lemma ow_emit ev : (forall c, ev <> EWire c) -> only_wire P (modify (oemit ev)).
Proof.
  intros Hev s s' r H. inversion H; subst. exists [ev]. split; [reflexivity|].
  intros c [E|[]]. exfalso. exact (Hev c E).
Qed.

Lemma ow_doCommand reply cmd : P cmd -> only_wire P (doCommand reply cmd).
Proof.
  intros Hc s s' r H. unfold doCommand, utf8_decode in H.
  exists [EWire cmd]. split.
  - destruct (reply (nreq s)) as [|b|]; [|destruct (utf8_valid b)|];
      inversion H; reflexivity.
  - intros c [E|[]]. inversion E; subst; assumption.
Qed.

Lemma ow_bind {A B} (m : OM A) (k : A -> OM B) :
  only_wire P m -> (forall a, only_wire P (k a)) -> only_wire P (bind m k).
Proof.
  intros Hm Hk s s' r H. unfold bind in H.
  destruct (m s) as [s1 [a|e]] eqn:E1.
  - destruct (Hm s s1 (Ok a) E1) as [suf1 [T1 P1]].
    destruct (Hk a s1 s' r H) as [suf2 [T2 P2]].
    exists (app suf1 suf2). rewrite T2, T1, app_assoc. split; [reflexivity|].
    intros c Hin. apply in_app_or in Hin. destruct Hin; auto.
  - inversion H; subst. exact (Hm s s' (Exn e) E1).
Qed.

End OnlyWire.

Lemma ow_guarded P reply cmd : P cmd -> only_wire P (guarded reply cmd).
Proof.
  intros Hc. unfold guarded. apply ow_bind; [apply ow_gets|intros st].
  destruct (st =? OFFLINE); [apply ow_ret|apply ow_doCommand; exact Hc].
Qed.

Fixpoint last_char (s : string) : option ascii :=
  match s with
  | EmptyString => None
  | String c r => match last_char r with None => Some c | Some d => Some d end
  end.

Lemma last_char_app s c : last_char (s ++ String c EmptyString) = Some c.
Proof. induction s as [|x s IH]; simpl; [reflexivity|]. rewrite IH. reflexivity. Qed.

Lemma suffix_not_cal s c :
  c <> "z"%char -> c <> "l"%char ->
  s ++ String c EmptyString <> "calaz" /\ s ++ String c EmptyString <> "calel".
Proof.
  intros Hz Hl. split; intros E; apply (f_equal last_char) in E;
    rewrite last_char_app in E; simpl in E; inversion E; subst; auto.
Qed.

Create HintDb wire.
#[local] Hint Resolve ow_ret ow_gets ow_lift ow_guarded : wire.

Ltac wire_auto :=
  repeat first
    [ apply ow_guarded
    | apply ow_doCommand
    | apply ow_bind; intros
    | match goal with |- only_wire _ (if ?b then _ else _) => destruct b end
    | apply ow_emit; intros ? ?; discriminate
    | apply ow_modify; intros; reflexivity
    | solve [auto with wire] ].

Definition not_cal (c : string) : Prop := c <> "calaz" /\ c <> "calel".

(** With both calibration values saved, [coldStart] sends nothing but the
    two speeds and the two presets. *)
Lemma coldStart_saved_no_cal reply a e :
  only_wire not_cal (coldStart reply (Some a) (Some e)).
Proof.
  unfold coldStart, setAzSpeed, setElSpeed, setCalAz, setCalEl,
    cal_failed, go_online, log, state_callback.
  wire_auto; unfold not_cal;
    try (split; discriminate);
    apply suffix_not_cal; discriminate.
Qed.

(* -------------------------------------------------------------------------- *)
(** ** Paths through [coldStart]                                              *)
(* -------------------------------------------------------------------------- *)

Ltac unfold_cold :=
  unfold coldStart, setAzSpeed, setElSpeed, setCalAz, setCalEl, calibrateAz,
    calibrateEl, cal_failed, go_online, log, state_callback, guarded, doCommand,
    utf8_decode, failed, bind, gets, ret, modify, lift, sent.

Lemma coldStart_offline reply ca ce s :
  status s = OFFLINE -> coldStart reply ca ce s = (s, Ok true).
Proof. intros H. unfold_cold. rewrite H. reflexivity. Qed.

Lemma coldStart_az_speed_fails reply ca ce s :
  status s <> OFFLINE -> bad_reply (reply (nreq s)) = true ->
  coldStart reply ca ce s =
    (set_status CAL_FAILED (oemit (EState CAL_FAILED)
       (oemit (ELog "Failed to set azimuth motor speed!") (sent "30n" s))), Ok false).
Proof.
  intros Hs Hb. unfold_cold.
  apply Z.eqb_neq in Hs. simpl. rewrite Hs. simpl. rewrite Hs. simpl.
  destruct (reply (nreq s)) as [|b|]; simpl in Hb; try discriminate; [reflexivity|].
  apply String.eqb_eq in Hb. subst b. reflexivity.
Qed.

Lemma coldStart_el_speed_fails reply ca ce s :
  status s <> OFFLINE -> good_reply (reply (nreq s)) = true ->
  bad_reply (reply (S (nreq s))) = true ->
  coldStart reply ca ce s =
    (set_status CAL_FAILED (oemit (EState CAL_FAILED)
       (oemit (ELog "Failed to set elevation motor speed!")
          (sent "20m" (sent "30n" s)))), Ok false).
Proof.
  intros Hs Hg Hb. unfold_cold.
  apply Z.eqb_neq in Hs. simpl. rewrite Hs. simpl. rewrite Hs. simpl.
  destruct (reply (nreq s)) as [|b|]; simpl in Hg; try discriminate.
  apply andb_prop in Hg. destruct Hg as [V N]. apply negb_true_iff in N.
  rewrite V. simpl. rewrite N. simpl. rewrite Hs. simpl.
  destruct (reply (S (nreq s))) as [|b'|]; simpl in Hb; try discriminate; [reflexivity|].
  apply String.eqb_eq in Hb. subst b'. reflexivity.
Qed.

Ltac use_good Hg :=
  match type of Hg with
  | forall k, good_reply (?rep k) = true =>
  match goal with
  | |- context [rep ?k] =>
      let E := fresh "E" in let V := fresh "V" in let N := fresh "N" in
      let b := fresh "b" in
      pose proof (Hg k) as E;
      destruct (rep k) as [|b|]; simpl in E; try discriminate E;
      apply andb_prop in E; destruct E as [V N]; apply negb_true_iff in N;
      rewrite V; simpl; rewrite ?N; simpl
  end end.

Lemma coldStart_all_good reply ca ce s :
  status s <> OFFLINE -> (forall k, good_reply (reply k) = true) ->
  status (fst (coldStart reply ca ce s)) = ONLINE /\
  snd (coldStart reply ca ce s) = Ok true.
Proof.
  intros Hs Hg. unfold_cold.
  apply Z.eqb_neq in Hs. simpl. rewrite Hs. simpl. rewrite Hs. simpl.
  use_good Hg. rewrite Hs. use_good Hg.
  destruct ca, ce; simpl; repeat (rewrite ?Hs; use_good Hg); split; reflexivity.
Qed.

Lemma coldStart_saved_trace reply a e s :
  status s <> OFFLINE -> (forall k, good_reply (reply k) = true) ->
  otrace (fst (coldStart reply (Some a) (Some e) s)) =
    app (otrace s) [EWire "30n"; EWire "20m"; EWire (a ++ "a"); EWire (e ++ "b");
                    EState ONLINE].
Proof.
  intros Hs Hg. unfold_cold.
  apply Z.eqb_neq in Hs. simpl. rewrite Hs. simpl. rewrite Hs. simpl.
  use_good Hg. rewrite Hs. use_good Hg.
  repeat (rewrite ?Hs; use_good Hg). simpl.
  rewrite <- !app_assoc. reflexivity.
Qed.


Definition ack_all : nat -> recv := fun _ => RData "ack".
Definition pending_rot : rot := set_status PENDING rot_init.



Example py_float_ex :
  py_float "359.9" = Some (PFin 6331427757385318 (-44)) /\
  py_trunc (PFin 6331427757385318 (-44)) = Ok 359 /\
  py_trunc (PFin (-6331427757385318) (-44)) = Ok (-359) /\
  py_float "0.1" = Some (PFin 7205759403792794 (-56)) /\
  py_float "1_0.5e1" = Some (PFin 7388718138654720 (-46)) /\
  option_map py_trunc (py_float "359.99999999999999999") = Some (Ok 360) /\
  py_float "-INFINITY" = Some (PInf true) /\ py_float "nan" = Some PNaN /\
  py_float "1e400" = Some (PInf false) /\ py_float "1e-400" = Some (PFin 0 0) /\
  py_float "1.7976931348623157e308" = Some (PFin (2 ^ 53 - 1) 971) /\
  py_float "1.7976931348623159e308" = Some (PInf false) /\
  py_float "1_.5" = None /\ py_float "1e" = None /\ py_float "." = None /\
  option_map py_trunc (py_float "-.5") = Some (Ok 0) /\
  py_float "5e-324" = Some (PFin 1 (-1074)).
Proof. vm_compute. repeat split. Qed.

Lemma wire_of_app t u : wire_of (app t u) = app (wire_of t) (wire_of u).
Proof. induction t as [|[] t IH]; simpl; try rewrite IH; reflexivity. Qed.

(** A [P <az> <el>] line whose arguments are finite floats. *)
Lemma sat_P_line s msg a e fa fe za ze :
  py_split_ws msg = ["P"; a; e] ->
  py_float a = Some fa -> py_trunc fa = Ok za ->
  py_float e = Some fe -> py_trunc fe = Ok ze ->
  sat_listenCallback msg s =
    ({| azimuth := za; elevation := ze; srestart := srestart s;
        strace := app (strace s)
          [SCmd (CSetPosAz [za]); SCmd (CSetPosEl [ze]); SPos za ze;
           SSend ("RPRT 0" ++ NL)] |}, Ok tt).
Proof.
  intros Hs Ha Hta He Hte. unfold sat_listenCallback.
  destruct msg as [|c r]; [discriminate Hs|]. simpl String.length.
  cbv iota beta. unfold catch, sat_body. rewrite Hs.
  cbv [bind lift of_opt int_float gets modify ret catch_value_error].
  simpl. rewrite Ha. simpl. rewrite Hta. simpl. rewrite He. simpl. rewrite Hte.
  simpl. unfold semit, set_elevation, set_azimuth; simpl. rewrite <- !app_assoc. reflexivity.
Qed.

Ltac unfold_pos :=
  unfold rot_exec_all, rot_exec, setPosAz, setPosEl, homeAz, homeEl, pos_callback,
    doCommand, utf8_decode, failed, bind, gets, ret, modify, lift, of_opt, sent,
    oemit, set_degaz, set_degel.

(** [setPosAz([za])] then [setPosEl([ze])] on a rotator that is not offline
    and whose controller answers every command well. *)
Lemma rot_setPos_online reply za ze s :
  status s <> OFFLINE -> (forall k, good_reply (reply k) = true) ->
  snd (rot_exec_all reply [CSetPosAz [za]; CSetPosEl [ze]] s) = Ok tt /\
  wire_of (otrace (fst (rot_exec_all reply [CSetPosAz [za]; CSetPosEl [ze]] s))) =
    app (wire_of (otrace s))
      (app (if degaz s =? -1 then ["homeaz"] else [])
         ((py_str_Z za ++ "z") ::
          app (if degel s =? -1 then ["homeel"] else []) [py_str_Z ze ++ "e"])).
Proof.
  intros Hs Hg. apply Z.eqb_neq in Hs. unfold_pos.
  repeat (simpl; first
    [ rewrite Hs
    | use_good Hg
    | match goal with |- context [if ?b then _ else _] => destruct b end ]);
    (split; [reflexivity|]); rewrite !wire_of_app; simpl; rewrite <- ?app_assoc;
    reflexivity.
Qed.

(** Offline, [setPosAz]/[setPosEl] send nothing. *)
Lemma rot_setPos_offline reply za ze s :
  status s = OFFLINE ->
  snd (rot_exec_all reply [CSetPosAz [za]; CSetPosEl [ze]] s) = Ok tt /\
  otrace (fst (rot_exec_all reply [CSetPosAz [za]; CSetPosEl [ze]] s)) = otrace s.
Proof.
  intros Hs. apply Z.eqb_eq in Hs. unfold_pos.
  repeat (simpl; first
    [ rewrite Hs
    | match goal with |- context [if ?b then _ else _] => destruct b end ]);
    split; reflexivity.
Qed.


(** A [P <az> <el>] line whose arguments parse as floats, one of them
    infinite or NaN: [int()] raises before anything is enqueued; the line
    leaves only log entries. *)
Lemma sat_P_nonfinite s msg a e fa fe :
  py_split_ws msg = ["P"; a; e] -> py_float a = Some fa -> py_float e = Some fe ->
  py_finite fa && py_finite fe = false ->
  exists logs,
    strace (fst (sat_listenCallback msg s)) = app (strace s) logs /\
    forallb log_only logs = true /\ snd (sat_listenCallback msg s) = Ok tt.
Proof.
  intros Hs Ha He Hf. unfold sat_listenCallback.
  destruct msg as [|c r]; [discriminate Hs|]. simpl String.length.
  cbv iota beta. unfold catch, sat_body. rewrite Hs.
  cbv [bind lift of_opt int_float gets modify ret raise catch_value_error].
  simpl. rewrite Ha. simpl.
  destruct fa as [m k| |]; simpl; [rewrite He; destruct fe as [m' k'| |]; simpl|..];
    try discriminate Hf; eexists; (split; [reflexivity|split; reflexivity]).
Qed.


Definition online_rot : rot := set_status ONLINE rot_init.


Definition tuned_rig : rig :=
  {| ptt := true; rigPtt := false; lastFreq := Some "145800000";
     restart := false; catq := []; arrivals := []; rtrace := [] |}.


(* ========================================================================== *)
(** * Further properties of rotif.py, rigif.py, satif.py and rotui.py          *)
(* ========================================================================== *)


Ltac run_simpl :=
  unfold run_entry, poll, isOnLine, nudgeAzFwd, nudgeAzRev, nudgeElFwd, nudgeElRev,
    calibrateAz, calibrateEl, homeAz, homeEl, guarded, doCommand, utf8_decode,
    failed, log, state_callback, bind, gets, ret, modify, lift, raise, sent.

(** X2: [RotIf.poll] sends 'poll'.  Any reply that decodes, 'nak'
    included, is reported to the state callback as PENDING, sets the status
    to PENDING and is returned as [(True, d)].  A timeout returns
    [(False, 'nak')] and reports nothing; an undecodable reply or a socket
    error raises.  In these cases the status is left as it was. *)
Lemma poll_status reply s :
  poll reply s =
    match reply (nreq s) with
    | RTimeout => (sent "poll" s, Ok (false, "nak"))
    | RData b =>
        if utf8_valid b
        then (set_status PENDING (oemit (EState PENDING) (sent "poll" s)), Ok (true, b))
        else (sent "poll" s, Exn UnicodeDecodeError)
    | RSockErr => (sent "poll" s, Exn OSError)
    end.
Proof.
  run_simpl. destruct (reply (nreq s)) as [|b|]; [|destruct (utf8_valid b)|]; reflexivity.
Qed.

(** X3: [RotIf.isOnLine] sends 'poll' too; only a timeout sets the status
    to OFFLINE; any other outcome leaves the status as it was. *)
Lemma isOnLine_status reply s :
  status (fst (isOnLine reply s)) =
    match reply (nreq s) with
    | RTimeout => OFFLINE
    | _ => status s
    end /\
  wire_of (otrace (fst (isOnLine reply s))) = app (wire_of (otrace s)) ["poll"].
Proof.
  run_simpl. destruct (reply (nreq s)) as [|b|]; [|destruct (utf8_valid b)|];
    simpl; rewrite ?wire_of_app; simpl; rewrite ?app_nil_r; split; reflexivity.
Qed.

Ltac case_step :=
  match goal with
  | |- context [match ?x with RTimeout => _ | RData _ => _ | RSockErr => _ end] => destruct x
  | |- context [if ?b then _ else _] => destruct b
  | |- context [match ?x with Ok _ => _ | Exn _ => _ end] => destruct x
  | |- context [match ?x with Some _ => _ | None => _ end] => destruct x
  end.

Ltac split_all_with H := repeat (simpl; first [rewrite H | rewrite Z.eqb_refl | case_step]).

Ltac case_all := repeat (simpl; case_step).

Ltac fin_off := split; [rewrite <- ?app_assoc; reflexivity | let HH := fresh in intro HH; first [discriminate HH | assumption | reflexivity]].

(** X4: one pass of [RotIf.run] while the controller is OFFLINE: only
    poll, isonline, calibrateAz and calibrateEl put a command on the wire
    (one each: 'poll', 'poll', 'calaz', 'calel'); every other entry sends
    nothing and leaves the status OFFLINE. *)
Lemma run_entry_offline reply ca ce c s :
  status s = OFFLINE ->
  wire_of (otrace (fst (run_entry reply ca ce c s))) =
    app (wire_of (otrace s))
      (match c with
       | QPoll | QIsOnline => ["poll"]
       | QCalibrateAz => ["calaz"]
       | QCalibrateEl => ["calel"]
       | _ => []
       end) /\
  (talks_offline c = false -> status (fst (run_entry reply ca ce c s)) = OFFLINE).
Proof.
  intros Hs.
  destruct c; simpl talks_offline; cbv iota.
  { unfold run_entry, bind; cbv beta zeta. rewrite (coldStart_offline reply ca ce s Hs). simpl.
    rewrite app_nil_r. auto. }
  all: unfold run_entry, getPos, setPosAz, setPosEl, of_opt; run_simpl; rewrite ?Hs; split_all_with Hs; simpl;
    rewrite ?wire_of_app; simpl; rewrite ?app_nil_r; fin_off.
Qed.

(** X5: while OFFLINE, a setPosAz entry with the azimuth still unknown
    (-1) sends nothing but records the azimuth as 0, as if the axis had been
    homed; likewise a setPosEl entry with the elevation unknown.  The other
    axis plays no part. *)
Lemma run_setPos_offline_home reply ca ce a p e q s :
  status s = OFFLINE ->
  (degaz s = -1 -> fst (run_entry reply ca ce (QSetPosAz (a :: p)) s) = set_degaz 0 s) /\
  (degel s = -1 -> fst (run_entry reply ca ce (QSetPosEl (e :: q)) s) = set_degel 0 s).
Proof.
  intros Hs. split; intros Hd; unfold run_entry, setPosAz, setPosEl; run_simpl.
  all: repeat (simpl; first [rewrite Hs | rewrite Hd | rewrite Z.eqb_refl]); reflexivity.
Qed.

(** X6: calibrateAz / calibrateEl through [RotIf.run]: the command is sent
    whatever the status.  A timeout or 'nak' logs "Error executing command
    calibrateAz!" (resp. calibrateEl) and changes nothing else; a good reply
    [b] sets the position to 0 and the calibration value to [b]; in these
    cases the pass ends normally.  An undecodable reply raises
    UnicodeDecodeError and a socket error raises OSError, with only the
    send recorded. *)
Lemma run_calibrate reply ca ce s :
  run_entry reply ca ce QCalibrateAz s =
    match reply (nreq s) with
    | RData b =>
        if utf8_valid b then
          if String.eqb b "nak"
          then (oemit (ELog "Error executing command calibrateAz!") (sent "calaz" s), Ok tt)
          else (set_calaz (CalStr b) (set_degaz 0 (sent "calaz" s)), Ok tt)
        else (sent "calaz" s, Exn UnicodeDecodeError)
    | RTimeout => (oemit (ELog "Error executing command calibrateAz!") (sent "calaz" s), Ok tt)
    | RSockErr => (sent "calaz" s, Exn OSError)
    end /\
  run_entry reply ca ce QCalibrateEl s =
    match reply (nreq s) with
    | RData b =>
        if utf8_valid b then
          if String.eqb b "nak"
          then (oemit (ELog "Error executing command calibrateEl!") (sent "calel" s), Ok tt)
          else (set_calel (CalStr b) (set_degel 0 (sent "calel" s)), Ok tt)
        else (sent "calel" s, Exn UnicodeDecodeError)
    | RTimeout => (oemit (ELog "Error executing command calibrateEl!") (sent "calel" s), Ok tt)
    | RSockErr => (sent "calel" s, Exn OSError)
    end.
Proof.
  run_simpl. simpl.
  case_all; split; reflexivity.
Qed.




Lemma pq_pure {A} (m : RM A) :
  (forall s, fst (m s) = s) -> ptt_quiet m.
Proof.
  intros H s Hp. rewrite H. split; [exact Hp|split; [reflexivity|]].
  exists []. rewrite app_nil_r. split; [reflexivity|intros []].
Qed.

Lemma pq_ret {A} (a : A) : ptt_quiet (ret a).
Proof. apply pq_pure. reflexivity. Qed.

Lemma pq_raise {A} e : ptt_quiet (A:=A) (raise e).
Proof. apply pq_pure. reflexivity. Qed.

Lemma pq_lift {A} (r : res A) : ptt_quiet (lift r).
Proof. apply pq_pure. reflexivity. Qed.

Lemma pq_gets {A} (f : rig -> A) : ptt_quiet (gets f).
Proof. apply pq_pure. reflexivity. Qed.

Lemma pq_emit ev : ev <> RCat CAT_PTT_SET (ABool true) -> ptt_quiet (modify (emit ev)).
Proof.
  intros Hev s Hp. simpl. split; [exact Hp|split; [reflexivity|]].
  exists [ev]. split; [reflexivity|]. intros [E|[]]. exact (Hev E).
Qed.

Lemma pq_set_lastFreq f : ptt_quiet (modify (set_lastFreq f)).
Proof.
  intros s Hp. simpl. split; [exact Hp|split; [reflexivity|]].
  exists []. rewrite app_nil_r. split; [reflexivity|intros []].
Qed.

Lemma pq_restart : ptt_quiet (modify set_restart).
Proof.
  intros s Hp. simpl. split; [exact Hp|split; [reflexivity|]].
  exists []. rewrite app_nil_r. split; [reflexivity|intros []].
Qed.

Lemma pq_bind {A B} (m : RM A) (k : A -> RM B) :
  ptt_quiet m -> (forall a, ptt_quiet (k a)) -> ptt_quiet (bind m k).
Proof.
  intros Hm Hk s Hp. unfold bind.
  specialize (Hm s Hp). destruct (m s) as [s1 [a|e]]; simpl in *.
  - destruct Hm as [P1 [R1 [suf1 [T1 N1]]]].
    destruct (Hk a s1 P1) as [P2 [R2 [suf2 [T2 N2]]]].
    split; [exact P2|split; [congruence|]].
    exists (app suf1 suf2). rewrite T2, T1, app_assoc. split; [reflexivity|].
    intros Hin. apply in_app_or in Hin. destruct Hin; auto.
  - exact Hm.
Qed.

(** [p <- gets ptt ;; k p] only ever runs [k false] here. *)
Lemma pq_gets_ptt {B} (k : bool -> RM B) :
  ptt_quiet (k false) -> ptt_quiet (bind (gets ptt) k).
Proof. intros Hk s Hp. unfold bind, gets. rewrite Hp. exact (Hk s Hp). Qed.

Lemma pq_catch {A} (m : RM A) (h : py_exn -> RM A) :
  ptt_quiet m -> (forall e, ptt_quiet (h e)) -> ptt_quiet (catch m h).
Proof.
  intros Hm Hh s Hp. unfold catch.
  specialize (Hm s Hp). destruct (m s) as [s1 [a|e]]; simpl in *; [exact Hm|].
  destruct Hm as [P1 [R1 [suf1 [T1 N1]]]].
  destruct (Hh e s1 P1) as [P2 [R2 [suf2 [T2 N2]]]].
  split; [exact P2|split; [congruence|]].
  exists (app suf1 suf2). rewrite T2, T1, app_assoc. split; [reflexivity|].
  intros Hin. apply in_app_or in Hin. destruct Hin; auto.
Qed.

Lemma pq_same (s s' : rig) :
  ptt s' = ptt s -> rigPtt s' = rigPtt s -> rtrace s' = rtrace s -> ptt s = false ->
  ptt s' = false /\ rigPtt s' = rigPtt s /\
  exists suf, rtrace s' = app (rtrace s) suf /\ ~ In (RCat CAT_PTT_SET (ABool true)) suf.
Proof.
  intros E1 E2 E3 Hp. split; [congruence|split; [exact E2|]].
  exists []. rewrite app_nil_r. split; [exact E3|intros []].
Qed.

Lemma sleep_tick_same s :
  ptt (sleep_tick s) = ptt s /\ rigPtt (sleep_tick s) = rigPtt s /\
  rtrace (sleep_tick s) = rtrace s.
Proof. unfold sleep_tick. destruct (arrivals s); auto. Qed.

Lemma pq_cat_wait command count : ptt_quiet (cat_wait command count).
Proof.
  induction count as [|c IH]; intros s Hp; simpl;
    destruct (pop_replies command (catq s)); simpl;
    try (apply pq_same; auto; fail).
  - destruct (sleep_tick_same (set_catq [] s)) as [A1 [A2 A3]].
    apply pq_same; auto.
  - destruct (sleep_tick_same (set_catq [] s)) as [A1 [A2 A3]].
    destruct c as [|c'].
    + apply pq_same; auto.
    + assert (P0 : ptt (sleep_tick (set_catq [] s)) = false) by (rewrite A1; exact Hp).
      destruct (IH _ P0) as [P1 [R1 [suf [T1 N1]]]].
      split; [exact P1|split; [rewrite R1, A2; reflexivity|exists suf; split; [rewrite T1, A3; reflexivity|exact N1]]].
Qed.

Create HintDb pttoff.
#[local] Hint Resolve pq_ret pq_raise pq_lift pq_gets pq_set_lastFreq pq_restart pq_cat_wait : pttoff.

Ltac pq_auto :=
  repeat first
    [ apply pq_gets_ptt; cbv beta iota
    | apply pq_bind; intros
    | apply pq_catch; intros
    | apply pq_emit; discriminate
    | match goal with |- ptt_quiet (match ?x with _ => _ end) => destruct x end
    | solve [auto with pttoff] ].

Lemma listen_ptt_quiet mf bw msg : ptt_quiet (listenCallback mf bw msg).
Proof.
  unfold listenCallback, listen_body, local, do_command, send, cat_response.
  cbv zeta. pq_auto.
Qed.

Lemma rig_run_ptt_off mf bw ops s :
  ptt s = false -> rigPtt s = false ->
  forallb (fun o => match o with OpPtt true => false | _ => true end) ops = true ->
  ptt (rig_run mf bw ops s) = false /\ rigPtt (rig_run mf bw ops s) = false /\
  exists suf, rtrace (rig_run mf bw ops s) = app (rtrace s) suf /\
              ~ In (RCat CAT_PTT_SET (ABool true)) suf.
Proof.
  revert s. induction ops as [|o os IH]; intros s Hp Hr Hops; simpl.
  - split; [exact Hp|split; [exact Hr|exists []; rewrite app_nil_r; split; [reflexivity|intros []]]].
  - simpl in Hops. apply andb_prop in Hops. destruct Hops as [Ho Hos].
    assert (Step : ptt (fst (rig_op_step mf bw o s)) = false /\
                   rigPtt (fst (rig_op_step mf bw o s)) = false /\
                   exists suf, rtrace (fst (rig_op_step mf bw o s)) = app (rtrace s) suf /\
                               ~ In (RCat CAT_PTT_SET (ABool true)) suf).
    { destruct o as [m|[|]]; simpl.
      - destruct (listen_ptt_quiet mf bw m s Hp) as [P1 [R1 T1]].
        split; [exact P1|split; [congruence|exact T1]].
      - discriminate Ho.
      - split; [reflexivity|split; [reflexivity|]].
        exists [RCat CAT_PTT_SET (ABool false)]. split; [reflexivity|].
        intros [E|[]]. discriminate E. }
    destruct Step as [P1 [R1 [suf1 [T1 N1]]]].
    destruct (IH _ P1 R1 Hos) as [P2 [R2 [suf2 [T2 N2]]]].
    split; [exact P2|split; [exact R2|]].
    exists (app suf1 suf2). rewrite T2, T1, app_assoc. split; [reflexivity|].
    intros Hin. apply in_app_or in Hin. destruct Hin; auto.
Qed.

(** X8: once the operator switches PTT off ([manualSetPtt(False)]), no
    sequence of tracker lines (and further PTT-off switches) can key the rig:
    [ptt] and [rigPtt] stay False and CAT_PTT_SET True is never sent. *)
Theorem ptt_off_stays_off mf bw ops s :
  forallb (fun o => match o with OpPtt true => false | _ => true end) ops = true ->
  ptt (rig_run mf bw (OpPtt false :: ops) s) = false /\
  rigPtt (rig_run mf bw (OpPtt false :: ops) s) = false /\
  exists suf, rtrace (rig_run mf bw (OpPtt false :: ops) s) =
                app (rtrace s) (RCat CAT_PTT_SET (ABool false) :: suf) /\
              ~ In (RCat CAT_PTT_SET (ABool true)) suf.
Proof.
  intros Hops. simpl.
  destruct (rig_run_ptt_off mf bw ops
              (set_rigPtt false (emit (RCat CAT_PTT_SET (ABool false)) (set_ptt false s)))
              eq_refl eq_refl Hops) as [P [R [suf [T N]]]].
  split; [exact P|split; [exact R|]]. exists suf. split; [|exact N].
  rewrite T. simpl. rewrite <- app_assoc. reflexivity.
Qed.



Lemma cat_wait_found command s d q' :
  pop_replies command (catq s) = PFound d q' ->
  forall n, cat_wait command n s = (set_catq q' s, Ok d).
Proof. intros H n. destruct n; simpl; rewrite H; reflexivity. Qed.

(** X9: an 'M' line always fails: [arg1] is bound only with two tokens
    and [arg2] only with three, so one of them is unbound; the catch-all logs
    NameError and requests a restart, and CAT_MODE_SET is never sent. *)
Lemma M_line_name_error mf bw s msg rest :
  rig_params msg = "M" :: rest ->
  listenCallback mf bw msg s = (set_restart (emit (RProblem NameError) s), Ok tt).
Proof.
  intros Hp.
  unfold listenCallback. rewrite rig_params_nonempty by (rewrite Hp; discriminate).
  unfold catch, listen_body. rewrite Hp.
  cbv [bind local lift of_opt do_command send modify gets ret]. simpl.
  destruct rest as [|a [|b [|c r]]]; reflexivity.
Qed.

Lemma cat_wait_empty command n s :
  pop_replies command (catq s) = PEmpty ->
  cat_wait command (S (S n)) s = cat_wait command (S n) (sleep_tick (set_catq [] s)).
Proof. intros H. simpl. rewrite H. reflexivity. Qed.

(** [__cat_response] finds the reply [d] after [k] sleeps, [k] below the
    count. *)
Lemma cat_wait_after command k : forall n s d q',
  (k < n)%nat ->
  (forall j, (j < k)%nat -> pop_replies command (catq (cat_idle j s)) = PEmpty) ->
  pop_replies command (catq (cat_idle k s)) = PFound d q' ->
  cat_wait command n s = (set_catq q' (cat_idle k s), Ok d).
Proof.
  induction k as [|k IH]; intros n s d q' Hk Hj Hf.
  - exact (cat_wait_found command s d q' Hf n).
  - destruct n as [|[|n]]; [lia|lia|].
    rewrite cat_wait_empty by exact (Hj O ltac:(lia)).
    apply IH; [lia| |exact Hf].
    intros j Hj'. exact (Hj (S j) ltac:(lia)).
Qed.

(** X10: an 'f' line: CAT_FREQ_GET is issued and [__cat_response] waits.
    When it finds a CAT_FREQ_GET reply [d] after [k < 50] sleeps (the deque
    empty, or holding only replies with a false result code, before each
    sleep; the reply may already be queued, [k = 0]), the queue is left with
    what followed the reply and '<d>\n' is sent; no restart. *)
Lemma f_line_reply mf bw s msg rest k d q' :
  rig_params msg = "f" :: rest -> (k < 50)%nat ->
  (forall j, (j < k)%nat ->
     pop_replies CAT_FREQ_GET (catq (cat_idle j (emit (RCat CAT_FREQ_GET ANone) s)))
       = PEmpty) ->
  pop_replies CAT_FREQ_GET (catq (cat_idle k (emit (RCat CAT_FREQ_GET ANone) s)))
    = PFound d q' ->
  listenCallback mf bw msg s =
    (emit (RSend (d ++ NL))
       (set_catq q' (cat_idle k (emit (RCat CAT_FREQ_GET ANone) s))), Ok tt).
Proof.
  intros Hp Hk Hj Hq.
  unfold listenCallback. rewrite rig_params_nonempty by (rewrite Hp; discriminate).
  unfold catch, listen_body. rewrite Hp.
  cbv [bind local lift of_opt do_command send modify gets ret cat_response]. cbn - [cat_wait].
  rewrite (cat_wait_after CAT_FREQ_GET k 50 (emit (RCat CAT_FREQ_GET ANone) s) d q' Hk Hj Hq).
  reflexivity.
Qed.

(** X11: an 'm' line: CAT_MODE_GET is issued and [__cat_response] waits.
    When it finds a CAT_MODE_GET reply [d] after [k < 50] sleeps, as in X10,
    '<mode> <bandwidth>\n' for [d] is sent; no restart. *)
Lemma m_line_reply mf bw s msg rest k d q' :
  rig_params msg = "m" :: rest -> (k < 50)%nat ->
  (forall j, (j < k)%nat ->
     pop_replies CAT_MODE_GET (catq (cat_idle j (emit (RCat CAT_MODE_GET ANone) s)))
       = PEmpty) ->
  pop_replies CAT_MODE_GET (catq (cat_idle k (emit (RCat CAT_MODE_GET ANone) s)))
    = PFound d q' ->
  listenCallback mf bw msg s =
    (emit (RSend (mf d ++ " " ++ bw (mf d) ++ NL))
       (set_catq q' (cat_idle k (emit (RCat CAT_MODE_GET ANone) s))), Ok tt).
Proof.
  intros Hp Hk Hj Hq.
  unfold listenCallback. rewrite rig_params_nonempty by (rewrite Hp; discriminate).
  unfold catch, listen_body. rewrite Hp.
  cbv [bind local lift of_opt do_command send modify gets ret cat_response]. cbn - [cat_wait].
  rewrite (cat_wait_after CAT_MODE_GET k 50 (emit (RCat CAT_MODE_GET ANone) s) d q' Hk Hj Hq).
  reflexivity.
Qed.

(** X12: a non-empty line with no tokens (e.g. a lone newline) makes both
    servers raise IndexError on [params[0]]: the catch-all logs it and
    requests a restart. *)
Lemma blank_line_restarts mf bw msg r s :
  (String.length msg <> 0)%nat ->
  (rig_params msg = [] ->
   listenCallback mf bw msg r = (set_restart (emit (RProblem IndexError) r), Ok tt)) /\
  (py_split_ws msg = [] ->
   sat_listenCallback msg s = (set_srestart (semit (SProblem IndexError) s), Ok tt)).
Proof.
  intros Hl. apply Nat.eqb_neq in Hl. split; intros Hp.
  - unfold listenCallback. rewrite Hl. unfold catch, listen_body. rewrite Hp. reflexivity.
  - unfold sat_listenCallback. rewrite Hl. unfold catch, sat_body. rewrite Hp. reflexivity.
Qed.

(** X13: a 'p' line (whatever follows) queues [getPos] with the last
    position hints and sends nothing itself; a rotator that is not ONLINE
    answers it by echoing those hints as '%f\n%f\n'. *)
Lemma p_line_getPos reply s msg rest r :
  py_split_ws msg = "p" :: rest ->
  sat_listenCallback msg s = (semit (SCmd (CGetPos (azimuth s) (elevation s))) s, Ok tt) /\
  (status r <> ONLINE -> Z.abs (azimuth s) <= max_double -> Z.abs (elevation s) <= max_double ->
   rot_exec reply (CGetPos (azimuth s) (elevation s)) r =
     (oemit (EReply (fmt_f (py_float_val (azimuth s)) ++ NL ++
                     fmt_f (py_float_val (elevation s)) ++ NL)) r, Ok tt)).
Proof.
  intros Hp. split.
  - unfold sat_listenCallback.
    assert (Hl : (String.length msg =? 0)%nat = false)
      by (destruct msg; [discriminate Hp|reflexivity]).
    rewrite Hl. unfold catch, sat_body. rewrite Hp. reflexivity.
  - intros Hs Ha He. unfold rot_exec, getPos, bind, gets, lift, modify, ret.
    apply Z.eqb_neq in Hs. rewrite Hs. rewrite (fmt_pos_ok _ _ Ha He). reflexivity.
Qed.

(** X14: an ASCII 'P' line without exactly two arguments only logs
    "Invalid number of parameters for position command! [...]": no reply is
    sent, no command queued and no restart requested. *)
Lemma P_line_bad_count s msg rest :
  is_ascii_str msg = true ->
  py_split_ws msg = "P" :: rest -> length rest <> 2%nat ->
  sat_listenCallback msg s =
    (semit (SMsg ("Invalid number of parameters for position command! [" ++ msg ++ "]")) s,
     Ok tt).
Proof.
  intros _ Hp Hn. unfold sat_listenCallback.
  assert (Hl : (String.length msg =? 0)%nat = false)
    by (destruct msg; [discriminate Hp|reflexivity]).
  rewrite Hl. unfold catch, sat_body. rewrite Hp. simpl.
  destruct (Nat.eqb_spec (length rest) 2) as [E|_]; [contradiction|reflexivity].
Qed.




Lemma onPosition_cases label mk text q :
  onPosition label mk text q =
    if (0 <? String.length text)%nat then
      match py_int text with
      | Some n => (app q [UCmd (mk [n])], Ok tt)
      | None => (app q [ULog ("Bad " ++ label ++ " position [" ++ text ++ "]")], Ok tt)
      end
    else (q, Exn NameError).
Proof.
  unfold onPosition, catch_value_error, bind, lift, of_opt, ret, modify.
  destruct (0 <? String.length text)%nat; [destruct (py_int text)|]; reflexivity.
Qed.



Lemma zeros_all_digits k : all_digits (zeros k) = true.
Proof. induction k; simpl; auto. Qed.

Lemma all_digits_app s t : all_digits (s ++ t) = all_digits s && all_digits t.
Proof. induction s; simpl; [reflexivity|]. rewrite IHs, andb_assoc. reflexivity. Qed.

Lemma length_zeros_app k t : String.length (zeros k ++ t) = (k + String.length t)%nat.
Proof. induction k; simpl; auto. Qed.

Lemma digit_not_space c : is_digit c = true -> is_py_space c = false.
Proof.
  unfold is_digit, is_py_space. intros H. apply andb_prop in H. destruct H as [H1 H2].
  apply Nat.leb_le in H1, H2.
  repeat match goal with |- context [(?a <=? ?b)%nat] =>
    destruct (Nat.leb_spec a b) end; simpl; lia.
Qed.

Lemma rstrip_digits s : all_digits s = true -> rstrip_by is_py_space s = s.
Proof.
  induction s as [|c r IH]; intros H; [reflexivity|].
  simpl in H. apply andb_prop in H. destruct H as [Hc Hr].
  simpl. rewrite IH, (digit_not_space c Hc) by exact Hr. reflexivity.
Qed.

Lemma strip_digits s : all_digits s = true -> py_strip s = s.
Proof.
  intros H. unfold py_strip.
  assert (Hl : lstrip_by is_py_space s = s).
  { destruct s as [|c r]; [reflexivity|]. simpl in H. apply andb_prop in H.
    simpl. rewrite (digit_not_space c (proj1 H)). reflexivity. }
  rewrite Hl. exact (rstrip_digits s H).
Qed.

Lemma py_int_digits c r :
  all_digits (String c r) = true -> py_int (String c r) = dec_us (String c r) 0 false.
Proof.
  intros H. unfold py_int. rewrite (strip_digits _ H).
  simpl in H. apply andb_prop in H. destruct H as [Hc _].
  destruct c as [[] [] [] [] [] [] [] []]; try discriminate Hc; reflexivity.
Qed.

Lemma dec_us_zeros k c r ld :
  is_digit c = true ->
  dec_us (zeros k ++ String c r) 0 ld = dec_us (String c r) 0 false.
Proof.
  intros Hc. revert ld. induction k as [|k IH]; intros ld.
  - simpl. rewrite Hc. reflexivity.
  - simpl zeros. simpl append. cbn [dec_us]. simpl is_digit. cbv iota.
    change (0 * 10 + digit_val "0") with 0. apply IH.
Qed.

Lemma py_zfill_digits f w :
  all_digits f = true -> (0 < String.length f)%nat ->
  py_zfill f w = zeros (w - String.length f) ++ f.
Proof.
  intros Hd Hl. unfold py_zfill.
  destruct (Nat.leb_spec w (String.length f)) as [Hw|Hw].
  - replace (w - String.length f)%nat with 0%nat by lia. reflexivity.
  - destruct f as [|c r]; [simpl in Hl; lia|].
    simpl in Hd. apply andb_prop in Hd. destruct Hd as [Hc _].
    destruct c as [[] [] [] [] [] [] [] []]; try discriminate Hc; reflexivity.
Qed.

(** X17: the rig frequency display: a 1 to 9 digit frequency reported by
    [RigIf] is shown zero-padded to 9 characters with the same value, in
    the RX field when [ptt] was False and the TX field when True; the other
    field is untouched. *)
Theorem freq_display mode f u :
  all_digits f = true -> (0 < String.length f <= 9)%nat ->
  String.length (freq_field mode (rig_track_online (rigFreq mode f u))) = 9%nat /\
  py_int (freq_field mode (rig_track_online (rigFreq mode f u))) = py_int f /\
  freq_field (negb mode) (rig_track_online (rigFreq mode f u)) = freq_field (negb mode) u.
Proof.
  intros Hd Hl.
  assert (Hz : py_zfill f 9 = zeros (9 - String.length f) ++ f)
    by (apply py_zfill_digits; [exact Hd|lia]).
  assert (Hlen : String.length (py_zfill f 9) = 9%nat)
    by (rewrite Hz, length_zeros_app; lia).
  assert (Hv : py_int (py_zfill f 9) = py_int f).
  { rewrite Hz. destruct f as [|c r]; [simpl in Hl; lia|].
    pose proof Hd as Hd'. simpl in Hd'. apply andb_prop in Hd'. destruct Hd' as [Hc _].
    destruct (9 - String.length (String c r))%nat as [|k] eqn:Ek; [reflexivity|].
    assert (Ha : all_digits (zeros (S k) ++ String c r) = true)
      by (rewrite all_digits_app, zeros_all_digits; exact Hd).
    simpl zeros in Ha |- *. simpl append in Ha |- *.
    rewrite (py_int_digits _ _ Ha), (py_int_digits _ _ Hd).
    exact (dec_us_zeros (S k) c r false Hc). }
  destruct mode; unfold freq_field; simpl; auto.
Qed.

Lemma drain_aux_rev n q : (length q <= n)%nat -> drain_aux n q = rev q.
Proof.
  revert q. induction n as [|n IH]; intros q Hq.
  - destruct q; [reflexivity|simpl in Hq; lia].
  - destruct q as [|x q']; [reflexivity|].
    change (drain_aux (S n) (x :: q')) with
      (last (x :: q') "" :: drain_aux n (removelast (x :: q'))).
    destruct (exists_last (l:=x :: q') ltac:(discriminate)) as [l [a Ela]].
    rewrite Ela in Hq |- *. rewrite last_last, removelast_last, rev_app_distr.
    rewrite IH; [reflexivity|].
    rewrite length_app in Hq. simpl in Hq. lia.
Qed.

(** X18: the listeners' send loop empties [sendq] with [deque.pop()]: the
    queued strings go out newest first, in reverse order of queueing. *)
Theorem drain_rev q : drain q = rev q.
Proof. apply drain_aux_rev. lia. Qed.




(** X19: a 't' line answers the operator's PTT switch ([ptt]), '1\n' or
    '0\n', and nothing else happens. *)
Lemma t_line_reports_switch mf bw s msg rest :
  rig_params msg = "t" :: rest ->
  listenCallback mf bw msg s =
    (emit (RSend ((if ptt s then "1" else "0") ++ NL)) s, Ok tt).
Proof.
  intros Hp.
  unfold listenCallback. rewrite rig_params_nonempty by (rewrite Hp; discriminate).
  unfold catch, listen_body. rewrite Hp.
  cbv [bind local lift of_opt do_command send modify gets ret]. cbn - [cat_wait].
  destruct (ptt s); reflexivity.
Qed.

Lemma sat_nonempty msg t rest :
  py_split_ws msg = t :: rest -> (String.length msg =? 0)%nat = false.
Proof. destruct msg; [discriminate|reflexivity]. Qed.

(** X20: 'q' and 'x' request a restart on both servers; 'q' also answers
    'RPRT 0\n' (the rig server queues it after the restart request), 'x'
    answers nothing; the rotctld 'S' only answers 'RPRT 0\n'. *)
Theorem quit_lines mf bw msg rest r s :
  (rig_params msg = "q" :: rest ->
   listenCallback mf bw msg r =
     (emit (RSend ("RPRT 0" ++ NL))
        (set_restart (emit (RMsg "Request to quit from sat control program!") r)), Ok tt)) /\
  (rig_params msg = "x" :: rest ->
   listenCallback mf bw msg r =
     (set_restart (emit (RMsg "Rig listner requested exit!") r), Ok tt)) /\
  (py_split_ws msg = "q" :: rest ->
   sat_listenCallback msg s =
     (set_srestart (semit (SSend ("RPRT 0" ++ NL)) (semit (SMsg "Request to quit listening") s)),
      Ok tt)) /\
  (py_split_ws msg = "x" :: rest ->
   sat_listenCallback msg s =
     (set_srestart (semit (SMsg "Antenna listner requested exit!") s), Ok tt)) /\
  (py_split_ws msg = "S" :: rest ->
   sat_listenCallback msg s = (semit (SSend ("RPRT 0" ++ NL)) s, Ok tt)).
Proof.
  repeat split; intros Hp.
  1-2: unfold listenCallback; rewrite rig_params_nonempty by (rewrite Hp; discriminate);
       unfold catch, listen_body; rewrite Hp; reflexivity.
  all: unfold sat_listenCallback; rewrite (sat_nonempty _ _ _ Hp);
       unfold catch, sat_body; rewrite Hp; reflexivity.
Qed.

(** X21: an unknown command is logged and acknowledged with 'RPRT 0\n' on
    both servers, without a restart (the rotctld server for ASCII lines). *)
Theorem unknown_lines mf bw msg code rest r s :
  (rig_params msg = code :: rest -> ~ In code ["F"; "f"; "t"; "M"; "m"; "q"; "x"] ->
   listenCallback mf bw msg r =
     (emit (RSend ("RPRT 0" ++ NL))
        (emit (RMsg ("Unknown command from rig interface! [" ++ rstrip_nl msg ++ "]")) r),
      Ok tt)) /\
  (is_ascii_str msg = true ->
   py_split_ws msg = code :: rest -> ~ In code ["p"; "P"; "S"; "q"; "x"] ->
   sat_listenCallback msg s =
     (semit (SSend ("RPRT 0" ++ NL))
        (semit (SMsg ("Unknown command from satellite program! [" ++ msg ++ "]")) s),
      Ok tt)).
Proof.
  split; [intros Hp Hn|intros _].
  - unfold listenCallback. rewrite rig_params_nonempty by (rewrite Hp; discriminate).
    unfold catch, listen_body. rewrite Hp.
    repeat match goal with |- context [String.eqb code ?k] =>
      destruct (String.eqb_spec code k) as [E|_]; [subst; exfalso; apply Hn; simpl; tauto|]
    end.
    reflexivity.
  - intros Hp Hn. unfold sat_listenCallback. rewrite (sat_nonempty _ _ _ Hp).
    unfold catch, sat_body. rewrite Hp.
    repeat match goal with |- context [String.eqb code ?k] =>
      destruct (String.eqb_spec code k) as [E|_]; [subst; exfalso; apply Hn; simpl; tauto|]
    end.
    reflexivity.
Qed.

(* -------------------------------------------------------------------------- *)
(** ** Examples for the properties above                                     *)
(* -------------------------------------------------------------------------- *)

Lemma run_entry_offline_witness :
  status rot_init = OFFLINE /\
  wire_of (otrace (fst (run_entry ack_all None None QNudgeAzFwd rot_init))) =
    app (wire_of (otrace rot_init)) [] /\
  (talks_offline QNudgeAzFwd = false ->
   status (fst (run_entry ack_all None None QNudgeAzFwd rot_init)) = OFFLINE).
Proof.
  split; [reflexivity|].
  exact (run_entry_offline ack_all None None QNudgeAzFwd rot_init eq_refl).
Defined.

Lemma run_setPos_offline_home_witness :
  fst (run_entry ack_all None None (QSetPosAz [90]) (set_degel 30 rot_init)) =
    set_degaz 0 (set_degel 30 rot_init) /\
  fst (run_entry ack_all None None (QSetPosEl [45]) (set_degaz 30 rot_init)) =
    set_degel 0 (set_degaz 30 rot_init).
Proof.
  split.
  - exact (proj1 (run_setPos_offline_home ack_all None None 90 [] 45 []
                    (set_degel 30 rot_init) eq_refl) eq_refl).
  - exact (proj2 (run_setPos_offline_home ack_all None None 90 [] 45 []
                    (set_degaz 30 rot_init) eq_refl) eq_refl).
Defined.


Lemma ptt_off_stays_off_witness :
  ptt (rig_run id_str id_str [OpPtt false; OpLine ("F 145800000" ++ NL); OpLine "t"]
         (rig_init [] [])) = false /\
  rigPtt (rig_run id_str id_str [OpPtt false; OpLine ("F 145800000" ++ NL); OpLine "t"]
            (rig_init [] [])) = false /\
  exists suf, rtrace (rig_run id_str id_str
                        [OpPtt false; OpLine ("F 145800000" ++ NL); OpLine "t"]
                        (rig_init [] [])) =
                app (rtrace (rig_init [] [])) (RCat CAT_PTT_SET (ABool false) :: suf) /\
              ~ In (RCat CAT_PTT_SET (ABool true)) suf.
Proof.
  exact (ptt_off_stays_off id_str id_str [OpLine ("F 145800000" ++ NL); OpLine "t"]
           (rig_init [] []) eq_refl).
Defined.

Lemma M_line_name_error_witness :
  rig_params "M USB 2400" = ["M"; "USB"; "2400"] /\
  listenCallback id_str id_str "M USB 2400" (rig_init [] []) =
    (set_restart (emit (RProblem NameError) (rig_init [] [])), Ok tt).
Proof.
  split; [reflexivity|].
  exact (M_line_name_error id_str id_str (rig_init [] []) "M USB 2400" ["USB"; "2400"]
           eq_refl).
Defined.

Lemma f_line_reply_witness :
  listenCallback id_str id_str "f" cat_rig =
    (emit (RSend ("145800000" ++ NL))
       (set_catq [] (cat_idle 2 (emit (RCat CAT_FREQ_GET ANone) cat_rig))), Ok tt).
Proof.
  apply (f_line_reply id_str id_str cat_rig "f" [] 2 "145800000" []).
  - reflexivity.
  - lia.
  - intros j Hj. destruct j as [|[|j]]; first [reflexivity | lia].
  - reflexivity.
Defined.

Lemma m_line_reply_witness :
  listenCallback id_str id_str "m" mode_rig =
    (emit (RSend (id_str "1" ++ " " ++ id_str (id_str "1") ++ NL))
       (set_catq [] (cat_idle 1 (emit (RCat CAT_MODE_GET ANone) mode_rig))), Ok tt).
Proof.
  apply (m_line_reply id_str id_str mode_rig "m" [] 1 "1" []).
  - reflexivity.
  - lia.
  - intros j Hj. destruct j as [|[|j]]; first [reflexivity | lia].
  - reflexivity.
Defined.

Lemma blank_line_restarts_witness :
  (String.length NL <> 0)%nat /\ rig_params NL = [] /\ py_split_ws NL = [] /\
  listenCallback id_str id_str NL (rig_init [] []) =
    (set_restart (emit (RProblem IndexError) (rig_init [] [])), Ok tt) /\
  sat_listenCallback NL sat_init =
    (set_srestart (semit (SProblem IndexError) sat_init), Ok tt).
Proof.
  assert (H : (String.length NL <> 0)%nat) by discriminate.
  destruct (blank_line_restarts id_str id_str NL (rig_init [] []) sat_init H) as [A B].
  split; [exact H|split; [reflexivity|split; [reflexivity|split]]].
  - exact (A eq_refl).
  - exact (B eq_refl).
Defined.

Lemma p_line_getPos_witness :
  py_split_ws "p" = ["p"] /\
  sat_listenCallback "p" sat_init = (semit (SCmd (CGetPos 0 0)) sat_init, Ok tt) /\
  rot_exec ack_all (CGetPos 0 0) rot_init =
    (oemit (EReply (fmt_f (py_float_val 0) ++ NL ++ fmt_f (py_float_val 0) ++ NL)) rot_init,
     Ok tt).
Proof.
  destruct (p_line_getPos ack_all sat_init "p" [] rot_init eq_refl) as [A B].
  split; [reflexivity|split; [exact A|]].
  apply B.
  - vm_compute. discriminate.
  - apply Z.leb_le. reflexivity.
  - apply Z.leb_le. reflexivity.
Defined.

Lemma P_line_bad_count_witness :
  is_ascii_str "P 10" = true /\ py_split_ws "P 10" = ["P"; "10"] /\
  sat_listenCallback "P 10" sat_init =
    (semit (SMsg ("Invalid number of parameters for position command! [" ++ "P 10" ++ "]"))
       sat_init, Ok tt).
Proof.
  split; [reflexivity|split; [reflexivity|]].
  apply (P_line_bad_count sat_init "P 10" ["10"]); [reflexivity|reflexivity|discriminate].
Defined.


Lemma freq_display_witness :
  all_digits "145800" = true /\
  String.length (freq_field false (rig_track_online (rigFreq false "145800" ui_blank))) = 9%nat /\
  py_int (freq_field false (rig_track_online (rigFreq false "145800" ui_blank))) =
    py_int "145800" /\
  freq_field (negb false) (rig_track_online (rigFreq false "145800" ui_blank)) =
    freq_field (negb false) ui_blank.
Proof.
  split; [reflexivity|].
  apply freq_display; [reflexivity|simpl; lia].
Defined.

Lemma t_line_reports_switch_witness :
  rig_params "t" = ["t"] /\
  listenCallback id_str id_str "t" (rig_init [] []) =
    (emit (RSend ((if ptt (rig_init [] []) then "1" else "0") ++ NL)) (rig_init [] []), Ok tt).
Proof.
  split; [reflexivity|].
  exact (t_line_reports_switch id_str id_str (rig_init [] []) "t" [] eq_refl).
Defined.

Lemma quit_lines_witness :
  rig_params "q" = ["q"] /\ py_split_ws "x" = ["x"] /\
  listenCallback id_str id_str "q" (rig_init [] []) =
    (emit (RSend ("RPRT 0" ++ NL))
       (set_restart (emit (RMsg "Request to quit from sat control program!")
                       (rig_init [] []))), Ok tt) /\
  sat_listenCallback "x" sat_init =
    (set_srestart (semit (SMsg "Antenna listner requested exit!") sat_init), Ok tt).
Proof.
  split; [reflexivity|split; [reflexivity|split]].
  - exact (proj1 (quit_lines id_str id_str "q" [] (rig_init [] []) sat_init) eq_refl).
  - exact (proj1 (proj2 (proj2 (proj2 (quit_lines id_str id_str "x" [] (rig_init [] [])
                                          sat_init)))) eq_refl).
Defined.

Lemma unknown_lines_witness :
  ~ In "w" ["F"; "f"; "t"; "M"; "m"; "q"; "x"] /\ ~ In "w" ["p"; "P"; "S"; "q"; "x"] /\
  listenCallback id_str id_str "w" (rig_init [] []) =
    (emit (RSend ("RPRT 0" ++ NL))
       (emit (RMsg ("Unknown command from rig interface! [" ++ rstrip_nl "w" ++ "]"))
          (rig_init [] [])), Ok tt) /\
  sat_listenCallback "w" sat_init =
    (semit (SSend ("RPRT 0" ++ NL))
       (semit (SMsg ("Unknown command from satellite program! [" ++ "w" ++ "]")) sat_init),
     Ok tt).
Proof.
  assert (H1 : ~ In "w" ["F"; "f"; "t"; "M"; "m"; "q"; "x"])
    by (simpl; intuition discriminate).
  assert (H2 : ~ In "w" ["p"; "P"; "S"; "q"; "x"]) by (simpl; intuition discriminate).
  destruct (unknown_lines id_str id_str "w" "w" [] (rig_init [] []) sat_init) as [A B].
  split; [exact H1|split; [exact H2|split]].
  - exact (A eq_refl H1).
  - exact (B eq_refl eq_refl H2).
Defined.
